(** * GoLow: a redirecting HTTP server (golow.go)

    A shallow embedding of [main] of golow.go: the configuration literal,
    the rule registration loop, the two redirect handlers, request dispatch
    through the router, and the start/interrupt/shutdown/exit control flow.

    golow.go is a client of the libraries net/http, reflect and gorilla/mux.
    Their code is not part of the program; each is embedded as the fragment
    of its behaviour that golow.go reaches, in a module named after the Go
    package.  What a path template matches is left to the router library
    and enters as a parameter [matchTemplate]. *)

From Stdlib Require Import ZArith Lia Ascii String.
From stdpp Require Import base option strings list gmap.

(** ** Bytes and strings *)
Module bytes.

Definition between (lo hi : nat) (c : ascii) : bool :=
  Nat.leb lo (nat_of_ascii c) && Nat.leb (nat_of_ascii c) hi.

Definition isAlpha (c : ascii) : bool := between 97 122 c || between 65 90 c.
Definition isDigit (c : ascii) : bool := between 48 57 c.
Definition isHex (c : ascii) : bool :=
  isDigit c || between 97 102 c || between 65 70 c.
(** ASCII: below [utf8.RuneSelf]. *)
Definition isASCII (c : ascii) : bool := Nat.ltb (nat_of_ascii c) 128.
(** Control bytes: below space, or DEL. *)
Definition isCTL (c : ascii) : bool :=
  Nat.ltb (nat_of_ascii c) 32 || Nat.eqb (nat_of_ascii c) 127.

(** Membership of a byte in a set written as a string. *)
Fixpoint oneOf (set : string) (c : ascii) : bool :=
  match set with
  | EmptyString => false
  | String a set' => Ascii.eqb a c || oneOf set' c
  end.

Fixpoint all (f : ascii → bool) (s : string) : bool :=
  match s with
  | EmptyString => true
  | String c s' => f c && all f s'
  end.

Definition hexDigit (upper : bool) (n : nat) : ascii :=
  if Nat.ltb n 10 then ascii_of_nat (48 + n)
  else ascii_of_nat ((if upper then 55 else 87) + n).

(** [s[:i], s[i:]] for the first index [i] of byte [c] in [s]; the whole
    string and the empty string when [c] does not occur. *)
Fixpoint cutAt (c : ascii) (s : string) : string * string :=
  match s with
  | EmptyString => (EmptyString, EmptyString)
  | String a s' =>
      if Ascii.eqb a c then (EmptyString, s)
      else (String a (cutAt c s').1, (cutAt c s').2)
  end.

Definition dropFirst (s : string) : string :=
  match s with
  | EmptyString => EmptyString
  | String _ s' => s'
  end.

Definition hasPrefix (s pre : string) : bool := String.prefix pre s.

(** [strings.HasSuffix(s, "/")]. *)
Fixpoint endsWithSlash (s : string) : bool :=
  match s with
  | EmptyString => false
  | String c s' =>
      match s' with
      | EmptyString => Ascii.eqb c "/"%char
      | String _ _ => endsWithSlash s'
      end
  end.

End bytes.

(** ** Package path *)
Module path.

(** The elements between the slashes of a path; a path is the elements
    joined by slashes. *)
Fixpoint segments (p : string) : list string :=
  match p with
  | EmptyString => [EmptyString]
  | String c p' =>
      if Ascii.eqb c "/"%char then EmptyString :: segments p'
      else match segments p' with
           | seg :: rest => String c seg :: rest
           | [] => [String c EmptyString]
           end
  end.

Fixpoint join (elems : list string) : string :=
  match elems with
  | [] => EmptyString
  | e :: rest =>
      match rest with
      | [] => e
      | _ :: _ => e +:+ "/" +:+ join rest
      end
  end.

(** [path.Split]: the path up to and including its last slash, and the
    rest. *)
Fixpoint Split (p : string) : string * string :=
  match p with
  | EmptyString => (EmptyString, EmptyString)
  | String c p' =>
      if Ascii.eqb c "/"%char then (String c (Split p').1, (Split p').2)
      else match (Split p').1 with
           | EmptyString => (EmptyString, String c (Split p').2)
           | String _ _ => (String c (Split p').1, (Split p').2)
           end
  end.

(** One element of [path.Clean], on the elements kept so far, last
    first: empty and [.] elements vanish, [..] removes the element before
    it, stays at the front of a path that is not rooted and vanishes at the
    root. *)
Definition cleanStep (rooted : bool) (kept : list string) (e : string)
  : list string :=
  if String.eqb e "" || String.eqb e "." then kept
  else if String.eqb e ".." then
    match kept with
    | top :: below => if String.eqb top ".." then e :: kept else below
    | [] => if rooted then [] else [e]
    end
  else e :: kept.

(** [path.Clean]: the shortest equivalent path. *)
Definition Clean (p : string) : string :=
  let rooted := bytes.hasPrefix p "/" in
  let out := join (rev (foldl (cleanStep rooted) [] (segments p))) in
  let r := if rooted then "/" +:+ out else out in
  if String.eqb r "" then "." else r.

End path.

(** ** Package net/url *)
Module urlpkg.

Inductive schemeResult :=
| NoScheme                 (* the URL has no scheme *)
| Scheme                   (* the URL starts with a scheme and a colon *)
| MissingScheme.           (* error: the URL starts with a colon *)

(** [getScheme]: letters, and after the first byte digits, [+], [-] and
    [.], up to a colon. *)
Fixpoint scanScheme (first : bool) (s : string) : schemeResult :=
  match s with
  | EmptyString => NoScheme
  | String c s' =>
      if bytes.isAlpha c then scanScheme false s'
      else if bytes.isDigit c || bytes.oneOf "+-." c then
        if first then NoScheme else scanScheme false s'
      else if Ascii.eqb c ":"%char then
        if first then MissingScheme else Scheme
      else NoScheme
  end.

(** Whether [unescape] accepts a string: every percent sign is followed
    by two hexadecimal digits. *)
Fixpoint validEscapes (s : string) : bool :=
  match s with
  | EmptyString => true
  | String c s' =>
      if Ascii.eqb c "%"%char then
        match s' with
        | String a (String b _) => bytes.isHex a && bytes.isHex b && validEscapes s'
        | _ => false
        end
      else validEscapes s'
  end.

Definition validUserinfo (s : string) : bool :=
  bytes.all (λ c, bytes.isAlpha c || bytes.isDigit c
                  || bytes.oneOf "-._:~!$&'()*+,;=%@" c) s.

(** The part of an authority after its last [@]: the host and port. *)
Fixpoint hostOf (authority : string) : string :=
  match authority with
  | EmptyString => EmptyString
  | String c a' =>
      if bytes.oneOf a' "@"%char then hostOf a'
      else if Ascii.eqb c "@"%char then a'
      else authority
  end.

(** Whether [url.Parse] accepts a target and finds neither a scheme nor a
    host in it: the targets that [http.Redirect] resolves against the path
    of the request.  [Parse] cuts the fragment off, refuses control bytes,
    a colon in front, a colon in the first element of a path that is not
    rooted and malformed percent escapes, and reads what follows two
    slashes in front as user and host. *)
Definition relative (rawURL : string) : bool :=
  let u := (bytes.cutAt "#" rawURL).1 in
  let frag := bytes.dropFirst (bytes.cutAt "#" rawURL).2 in
  if negb (bytes.all (λ c, negb (bytes.isCTL c)) u) then false
  else if String.eqb u "*" then validEscapes frag
  else
    match scanScheme true u with
    | NoScheme =>
        let rest := (bytes.cutAt "?" u).1 in
        if negb (bytes.hasPrefix rest "/")
           && bytes.oneOf (bytes.cutAt "/" rest).1 ":"%char
        then false
        else if bytes.hasPrefix rest "//" && negb (bytes.hasPrefix rest "///") then
          let auth := (bytes.cutAt "/" (bytes.dropFirst (bytes.dropFirst rest))).1 in
          let pth := (bytes.cutAt "/" (bytes.dropFirst (bytes.dropFirst rest))).2 in
          String.eqb (hostOf auth) ""
          && (String.eqb auth "" || (validUserinfo auth && validEscapes auth))
          && validEscapes pth && validEscapes frag
        else validEscapes rest && validEscapes frag
    | Scheme | MissingScheme => false
    end.

(** [shouldEscape] in path mode. *)
Definition shouldEscapePath (c : ascii) : bool :=
  negb (bytes.isAlpha c || bytes.isDigit c || bytes.oneOf "-_.~$&+,/:;=@" c).

Fixpoint escapePath (s : string) : string :=
  match s with
  | EmptyString => EmptyString
  | String c s' =>
      if shouldEscapePath c then
        String "%" (String (bytes.hexDigit true (nat_of_ascii c / 16))
                      (String (bytes.hexDigit true (nat_of_ascii c mod 16))
                         (escapePath s')))
      else String c (escapePath s')
  end.

(** [URL.String] of the URL of a request in origin form: the escaped path
    and, when there is one, the question mark and the query. *)
Definition String_ (path : string) (forceQuery : bool) (rawQuery : string)
  : string :=
  escapePath path
  +:+ (if forceQuery || negb (String.eqb rawQuery "") then "?" +:+ rawQuery
       else "").

End urlpkg.

(** ** Package net/http *)
Module http.

Definition StatusOK : Z := 200.
Definition StatusMovedPermanently : Z := 301.
Definition StatusTemporaryRedirect : Z := 307.
Definition StatusNotFound : Z := 404.

(** A parsed request, in origin form: the method and the path and query of
    its URL ([URL_ForceQuery]: a question mark with nothing behind it).  The
    handlers of golow.go never look inside the request: they only hand it
    on to [Redirect]. *)
Record Request := {
    Method : string;
    URL_Path : string;
    URL_ForceQuery : bool;
    URL_RawQuery : string
  }.

(** What a handler has written: the header map and the status line
    ([None] until [WriteHeader] is called).  The server hands every
    handler a writer on which nothing has been written yet. *)
Record ResponseWriter := {
    Header : gmap string string;
    Status : option Z
  }.

Definition NewResponse : ResponseWriter := {| Header := ∅; Status := None |}.

(** [hexEscapeNonASCII]: bytes from 128 on become a percent sign and two
    hexadecimal digits. *)
Fixpoint hexEscapeNonASCII (s : string) : string :=
  match s with
  | EmptyString => EmptyString
  | String c s' =>
      if bytes.isASCII c then String c (hexEscapeNonASCII s')
      else String "%" (String (bytes.hexDigit false (nat_of_ascii c / 16))
                         (String (bytes.hexDigit false (nat_of_ascii c mod 16))
                            (hexEscapeNonASCII s')))
  end.

(** The branch of [Redirect] for a target without scheme and host: the
    target is put behind the directory of the request path unless it
    starts with a slash, and cleaned up to its query, keeping a trailing
    slash. *)
Definition resolve (oldpath url : string) : string :=
  let oldpath := if String.eqb oldpath "" then "/" else oldpath in
  let url := if bytes.hasPrefix url "/" then url
             else (path.Split oldpath).1 +:+ url in
  let query := (bytes.cutAt "?" url).2 in
  let url := (bytes.cutAt "?" url).1 in
  let trailing := bytes.endsWithSlash url in
  let url := path.Clean url in
  let url := if trailing && negb (bytes.endsWithSlash url) then url +:+ "/"
             else url in
  url +:+ query.

(** The value that [Redirect] puts into the [Location] header. *)
Definition target (r : Request) (url : string) : string :=
  hexEscapeNonASCII
    (if urlpkg.relative url then resolve (URL_Path r) url else url).

(** [http.Redirect(w, r, url, code)]: sets the [Location] header, sets a
    content type for GET and HEAD unless the writer has one, and writes the
    status line. *)
Definition Redirect (w : ResponseWriter) (r : Request) (url : string) (code : Z)
    : ResponseWriter :=
    let hadCT := bool_decide (is_Some (Header w !! "Content-Type")) in
    let h := <["Location" := target r url]> (Header w) in
    {| Header :=
         if negb hadCT && (String.eqb (Method r) "GET" || String.eqb (Method r) "HEAD")
         then <["Content-Type" := "text/html; charset=utf-8"]> h
         else h;
       Status := Some code |}.

(** [http.NotFound(w, r)]: the plain 404 reply. *)
Definition NotFound (w : ResponseWriter) (r : Request) : ResponseWriter :=
    {| Header := <["Content-Type" := "text/plain; charset=utf-8"]> (Header w);
       Status := Some StatusNotFound |}.

(** A handler either panics ([None]) or returns the writer it wrote to
    together with the lines it sent to the process-wide logger. *)
Definition Handler : Type :=
    ResponseWriter → Request → option (ResponseWriter * list string).

Definition NotFoundHandler : Handler := λ w r, Some (NotFound w r, []).

(** The request [OPTIONS *]. *)
Definition isOptionsStar (r : Request) : bool :=
  String.eqb (Method r) "OPTIONS" && String.eqb (URL_Path r) "*".

(** The server in front of [srv.Handler]: it answers [OPTIONS *] itself,
    with status 200 and an empty body, and hands every other request to
    the handler. *)
Definition serverHandler (h : Handler) : Handler :=
  λ w r,
    if isOptionsStar r then
      Some ({| Header := <["Content-Length" := "0"]> (Header w);
               Status := Some StatusOK |}, [])
    else h w r.

(** A response is a redirect when a 3xx status was written and the
    [Location] header is present. *)
Definition is_redirect (w : ResponseWriter) : bool :=
    match Status w, Header w !! "Location" with
    | Some c, Some _ => (300 <=? c)%Z && (c <? 400)%Z
    | _, _ => false
    end.

(** Targets that [Redirect] leaves as they are: a scheme in front and
    ASCII throughout. *)
Definition absolute (url : string) : bool :=
  match urlpkg.scanScheme true url with
  | urlpkg.Scheme => bytes.all bytes.isASCII url
  | _ => false
  end.

End http.

(** ** Package log *)
Module log.

(** [log.Println(a, b)] with two string operands: Println always puts a
    space between operands.  The timestamp prefix is left out. *)
Definition Println2 (a b : string) : string := a +:+ " " +:+ b.

End log.

(** ** Package reflect *)
Module reflect.

Inductive Value :=
  | ValueOfBool (b : bool)
  | ValueOfInt (n : Z)
  | ValueOfString (s : string).

(** [Value.Bool()] panics ([None]) when the kind is not Bool. *)
Definition Bool (v : Value) : option bool :=
    match v with
    | ValueOfBool b => Some b
    | _ => None
    end.

(** A struct type, as reflection sees it: the declared fields, in
    declaration order, each with its name and the value it holds. *)
Class Struct (T : Type) := fields : T → list (string * Value).

Section Fields.
Context {T : Type} `{Struct T}.

Definition NumField (o : T) : nat := length (fields o).
(** [Type.Field(i)] and [Value.Field(i)] panic when [i] is out of range. *)
Definition FieldName (o : T) (i : nat) : option string := fst <$> fields o !! i.
Definition Field (o : T) (i : nat) : option Value := snd <$> fields o !! i.
End Fields.

End reflect.

(** ** Package github.com/gorilla/mux *)
Module mux.

Record Route := { template : string; handler : http.Handler }.

Record Router := {
    routes : list Route;
    NotFoundHandler : option http.Handler
  }.

Definition NewRouter : Router := {| routes := []; NotFoundHandler := None |}.

(** [r.HandleFunc(path, f)] adds a route at the end of the route list. *)
Definition HandleFunc (r : Router) (path : string) (f : http.Handler) : Router :=
    {| routes := routes r ++ [{| template := path; handler := f |}];
       NotFoundHandler := NotFoundHandler r |}.

Definition set_NotFoundHandler (r : Router) (f : http.Handler) : Router :=
    {| routes := routes r; NotFoundHandler := Some f |}.

(** [cleanPath]: the canonical form of a request path: rooted and clean,
    with the trailing slash kept. *)
Definition cleanPath (p : string) : string :=
  if String.eqb p "" then "/"
  else
    let p := if bytes.hasPrefix p "/" then p else "/" +:+ p in
    let np := path.Clean p in
    if bytes.endsWithSlash p && negb (String.eqb np "/") then np +:+ "/" else np.

Section Dispatch.
(** Whether a path template matches a request path. *)
Variable matchTemplate : string → string → bool.

Definition route_matches (req : http.Request) (rt : Route) : bool :=
      matchTemplate (template rt) (http.URL_Path req).

(** Routes are tested in the order they were added; the first one that
    matches wins. *)
Definition Match (r : Router) (req : http.Request) : option Route :=
      find (route_matches req) (routes r).

(** The second half of [Router.ServeHTTP], reached by a request whose
    path is in canonical form: the matched route's handler, else the
    configured [NotFoundHandler], else [http.NotFoundHandler()]. *)
Definition dispatch (r : Router) (w : http.ResponseWriter) (req : http.Request)
      : option (http.ResponseWriter * list string) :=
      match Match r req with
      | Some rt => handler rt w req
      | None =>
          match NotFoundHandler r with
          | Some h => h w req
          | None => http.NotFoundHandler w req
          end
      end.

(** [Router.ServeHTTP]: a request whose path is not in canonical form is
    answered by the router itself, with status 301 and the URL with the
    cleaned path as [Location]; no handler runs.  Every other request
    is dispatched. *)
Definition ServeHTTP (r : Router) (w : http.ResponseWriter) (req : http.Request)
      : option (http.ResponseWriter * list string) :=
      if String.eqb (cleanPath (http.URL_Path req)) (http.URL_Path req) then
        dispatch r w req
      else
        Some ({| http.Header :=
                   <["Location" := urlpkg.String_ (cleanPath (http.URL_Path req))
                                     (http.URL_ForceQuery req)
                                     (http.URL_RawQuery req)]> (http.Header w);
                 http.Status := Some http.StatusMovedPermanently |}, []).
End Dispatch.




End mux.

(** ** golow.go *)

(** [struct{}], the type of [URLRule.RedirectOptions]. *)
Record struct_ := struct_lit {}.

#[global] Instance struct__Struct : reflect.Struct struct_ := λ _, [].

(** [URLRule]: control redirects in the config file. *)
Record URLRule := {
  Path : string;
  URL : string;
  RedirectOptions : struct_
}.

(** [Config]: the config that gets loaded on start. *)
Record Config := {
  FinalRedirect : string;
  RedirectRules : list URLRule
}.

(** The literal assigned to [conf] in [main]. *)
Definition conf : Config :=
  {| FinalRedirect := "https://example.com";
     RedirectRules :=
       [ {| Path := "/go"; URL := "https://golang.org"; RedirectOptions := struct_lit |};
         {| Path := "/nh"; URL := "https://nhalstead.me"; RedirectOptions := struct_lit |} ] |}.

Section RuleHandler.
Context {T : Type} `{reflect.Struct T}.

(** One turn of the loop over the fields of [options]:
    [if field.Name == "permanently" && value.Bool() == true] assigns
    [http.StatusTemporaryRedirect].  [&&] evaluates [value.Bool()] only
    for a field of that name. *)
Definition fieldStep (options : T) (statusCode : Z) (i : nat) : option Z :=
  name ← reflect.FieldName options i;
  value ← reflect.Field options i;
  if String.eqb name "permanently" return option Z then
    b ← reflect.Bool value;
    Some (if b : bool then http.StatusTemporaryRedirect else statusCode)
  else Some statusCode.

(** [statusCode := http.StatusTemporaryRedirect] followed by
    [for i := 0; i < num; i++]; a panic in one turn ends the loop. *)
Definition ruleStatusCode (options : T) : option Z :=
  foldl (λ statusCode i, statusCode ≫= λ c, fieldStep options c i)
        (Some http.StatusTemporaryRedirect)
        (seq 0 (reflect.NumField options)).

(** The closure registered for a rule; it captured [url] and [options]. *)
Definition ruleHandler (url : string) (options : T) : http.Handler :=
    λ w r,
      statusCode ← ruleStatusCode options;
      Some (http.Redirect w r url statusCode,
            [log.Println2 "Redirected User Rule Based: " url]).
End RuleHandler.

(** The body of [for _, v := range conf.RedirectRules]. *)
Definition registerRule (r : mux.Router) (v : URLRule) : mux.Router :=
  if bool_decide (Path v ≠ "") && bool_decide (URL v ≠ "") then
    let path := Path v in
    let url := URL v in
    let options := RedirectOptions v in
    mux.HandleFunc r path (ruleHandler url options)
  else r.

(** The closure assigned to [r.NotFoundHandler]; it captured [conf]. *)
Definition defaultHandler (conf : Config) : http.Handler :=
  λ w r,
    Some (http.Redirect w r (FinalRedirect conf) http.StatusTemporaryRedirect,
          [log.Println2 "Redirected User with Default: " (FinalRedirect conf)]).

(** The router [main] builds from a configuration. *)
Definition mainRouter (conf : Config) : mux.Router :=
  mux.set_NotFoundHandler
    (foldl registerRule mux.NewRouter (RedirectRules conf))
    (defaultHandler conf).

(** The reply of the router to a request that reaches its routes, as every
    request with a path in canonical form does. *)
Definition respond (matchTemplate : string → string → bool)
    (conf : Config) (req : http.Request)
  : option (http.ResponseWriter * list string) :=
  mux.dispatch matchTemplate (mainRouter conf) http.NewResponse req.

(** The reply of the server to a request: [srv.Handler] is the router. *)
Definition serve (matchTemplate : string → string → bool)
    (conf : Config) (req : http.Request)
  : option (http.ResponseWriter * list string) :=
  http.serverHandler (mux.ServeHTTP matchTemplate (mainRouter conf))
    http.NewResponse req.

Definition get (p : string) : http.Request :=
  {| http.Method := "GET"; http.URL_Path := p;
     http.URL_ForceQuery := false; http.URL_RawQuery := "" |}.

(** A rule is registered when both its path and its URL are non-empty:
    the guard of the registration loop, as a proposition. *)
Definition valid (v : URLRule) : Prop := Path v ≠ "" ∧ URL v ≠ "".

#[global] Instance valid_dec (v : URLRule) : Decision (valid v).
Proof. unfold valid. apply _. Defined.

(** The route that the loop body registers for a rule. *)
Definition routeOf (v : URLRule) : mux.Route :=
  {| mux.template := Path v;
     mux.handler := ruleHandler (URL v) (RedirectOptions v) |}.

(** The [Location] header and the status of a reply, if there is one. *)
Definition location (reply : option (http.ResponseWriter * list string))
  : option string :=
  reply ≫= λ wl, http.Header wl.1 !! "Location".

Definition status (reply : option (http.ResponseWriter * list string))
  : option Z :=
  reply ≫= λ wl, http.Status wl.1.

(** ** Package os: the signals that golow.go names *)
Module os.

Inductive Signal := Interrupt | Kill | Quit | Terminate.

#[global] Instance Signal_eq_dec : EqDecision Signal.
Proof. solve_decision. Defined.

End os.

(** ** The control flow of [main] around the server

    After the router is built, [main] starts [srv.ListenAndServe] in a
    goroutine, registers channel [c] with [signal.Notify(c, os.Interrupt)],
    blocks on [<-c], calls [srv.Shutdown(ctx)], logs and calls [os.Exit(0)].
    The two execution paths are interleaved by the events below; what the
    library calls return is chosen by the environment.  The return of
    [srv.Shutdown], the log line after it and [os.Exit(0)] are taken as one
    step of the main path. *)

(** Where the main path stands. *)
Inductive mainPC :=
| AtReceive                  (* blocked on [<-c] *)
| AtShutdown                 (* inside [srv.Shutdown(ctx)] *)
| Exited (code : Z)          (* [os.Exit(code)] was called *)
| Killed (s : os.Signal).    (* ended by a signal that is not relayed to [c] *)

(** Where the goroutine stands. *)
Inductive servePC :=
| AtStart                    (* spawned, nothing executed yet *)
| AtListenAndServe           (* inside [srv.ListenAndServe()] *)
| Returned.                  (* the function literal has returned *)

Record process := {
  mainAt : mainPC;
  serveAt : servePC;
  bound : bool;                         (* the listener was opened *)
  notified : list os.Signal;            (* signals relayed to [c] *)
  logged : list string;                 (* lines sent to the logger *)
  sent : list http.ResponseWriter       (* replies written, oldest first *)
}.

Inductive event :=
| Signal (s : os.Signal)
| ServerStarts
| Binds
| Request (req : http.Request)
| ListenAndServeReturns (err : option string)
| ShutdownReturns (err : option string).

Definition running (p : process) : bool :=
  match mainAt p with
  | AtReceive | AtShutdown => true
  | Exited _ | Killed _ => false
  end.

(** [log.Println(err)] inside [if err != nil]. *)
Definition logError (err : option string) : list string :=
  match err with
  | Some e => [e]
  | None => []
  end.

Section Lifecycle.
Variable matchTemplate : string → string → bool.
Variable conf0 : Config.

(** The state in which [main] reaches [<-c]. *)
Definition start : process :=
  {| mainAt := AtReceive; serveAt := AtStart; bound := false;
     notified := [os.Interrupt]; logged := []; sent := [] |}.

(** One event.  A request is answered once the listener was opened, also
    after [srv.ListenAndServe] has returned: connections accepted before
    are served until the process ends. *)
Definition step (e : event) (p : process) : option process :=
  if running p then
    match e with
    | Signal s =>
        if decide (s ∈ notified p) then
          match mainAt p with
          | AtReceive =>
              Some {| mainAt := AtShutdown; serveAt := serveAt p;
                      bound := bound p; notified := notified p;
                      logged := logged p; sent := sent p |}
          | _ => Some p
          end
        else
          Some {| mainAt := Killed s; serveAt := serveAt p;
                  bound := bound p; notified := notified p;
                  logged := logged p; sent := sent p |}
    | ServerStarts =>
        match serveAt p with
        | AtStart =>
            Some {| mainAt := mainAt p; serveAt := AtListenAndServe;
                    bound := bound p; notified := notified p;
                    logged := logged p ++ ["Server Started"]; sent := sent p |}
        | _ => None
        end
    | Binds =>
        match serveAt p, bound p with
        | AtListenAndServe, false =>
            Some {| mainAt := mainAt p; serveAt := serveAt p;
                    bound := true; notified := notified p;
                    logged := logged p; sent := sent p |}
        | _, _ => None
        end
    | Request req =>
        if bound p then
          match serve matchTemplate conf0 req with
          | Some (w, lines) =>
              Some {| mainAt := mainAt p; serveAt := serveAt p;
                      bound := bound p; notified := notified p;
                      logged := logged p ++ lines; sent := sent p ++ [w] |}
          | None => Some p
          end
        else None
    | ListenAndServeReturns err =>
        match serveAt p with
        | AtListenAndServe =>
            Some {| mainAt := mainAt p; serveAt := Returned;
                    bound := bound p; notified := notified p;
                    logged := logged p ++ logError err; sent := sent p |}
        | _ => None
        end
    | ShutdownReturns err =>
        match mainAt p with
        | AtShutdown =>
            Some {| mainAt := Exited 0; serveAt := serveAt p;
                    bound := bound p; notified := notified p;
                    logged := logged p ++ ["Shutting Down."]; sent := sent p |}
        | _ => None
        end
    end
  else None.

(** Running a sequence of events; [None] when one of them cannot happen
    in the state reached. *)
Fixpoint run (tr : list event) (p : process) : option process :=
  match tr with
  | [] => Some p
  | e :: tr' => step e p ≫= run tr'
  end.

End Lifecycle.

(** ** Views of configurations *)

(** The targets a configuration names: the default and the URL of each
    rule that passes the guard of the registration loop. *)
Definition targets (c : Config) : list string :=
  FinalRedirect c :: (URL <$> filter valid (RedirectRules c)).

(** A request whose path is in the canonical form of the router. *)
Definition canonical (req : http.Request) : Prop :=
  mux.cleanPath (http.URL_Path req) = http.URL_Path req.

(** ** Sample rules, configurations and states *)

(** The rules of the literal configuration. *)
Definition goRule : URLRule :=
  {| Path := "/go"; URL := "https://golang.org"; RedirectOptions := struct_lit |}.
Definition nhRule : URLRule :=
  {| Path := "/nh"; URL := "https://nhalstead.me"; RedirectOptions := struct_lit |}.

(** A configuration in which two rules share a path. *)
Definition goDevRule : URLRule :=
  {| Path := "/go"; URL := "https://go.dev"; RedirectOptions := struct_lit |}.
Definition twiceGo : Config :=
  {| FinalRedirect := "https://example.com"; RedirectRules := [goRule; goDevRule] |}.

(** A rule with an empty path. *)
Definition emptyPathRule : URLRule :=
  {| Path := ""; URL := "https://x.com"; RedirectOptions := struct_lit |}.
Definition onlyEmptyPath : Config :=
  {| FinalRedirect := "https://example.com"; RedirectRules := [emptyPathRule] |}.

(** A rule with a target that has no scheme. *)
Definition relativeRule : URLRule :=
  {| Path := "/a/b"; URL := "c"; RedirectOptions := struct_lit |}.
Definition onlyRelative : Config :=
  {| FinalRedirect := "https://example.com"; RedirectRules := [relativeRule] |}.

(** The request [OPTIONS *]. *)
Definition optionsStar : http.Request :=
  {| http.Method := "OPTIONS"; http.URL_Path := "*";
     http.URL_ForceQuery := false; http.URL_RawQuery := "" |}.

(** The state after the goroutine has started and served a request for
    [/go]. *)
Definition servedGo : process :=
  {| mainAt := AtReceive; serveAt := AtListenAndServe; bound := true;
     notified := [os.Interrupt];
     logged := ["Server Started";
                log.Println2 "Redirected User Rule Based: " "https://golang.org"];
     sent := [http.Redirect http.NewResponse (get "/go") "https://golang.org" 307] |}.

(** The state after the goroutine has logged its start. *)
Definition listening : process :=
  {| mainAt := AtReceive; serveAt := AtListenAndServe; bound := false;
     notified := [os.Interrupt]; logged := ["Server Started"]; sent := [] |}.

(** * Properties *)

(** ** The literal configuration at work *)

Example respond_go :
  respond String.eqb conf (get "/go")
  = Some (http.Redirect http.NewResponse (get "/go") "https://golang.org" 307,
          ["Redirected User Rule Based:  https://golang.org"]).
Proof. reflexivity. Qed.

Example respond_nh :
  location (respond String.eqb conf (get "/nh")) = Some "https://nhalstead.me"
  ∧ status (respond String.eqb conf (get "/nh")) = Some 307%Z.
Proof. split; vm_compute; reflexivity. Qed.

Example respond_unknown :
  respond String.eqb conf (get "/unknown")
  = Some (http.Redirect http.NewResponse (get "/unknown") "https://example.com" 307,
          ["Redirected User with Default:  https://example.com"]).
Proof. reflexivity. Qed.

Example respond_go_slash :
  location (respond String.eqb conf (get "/go/")) = Some "https://example.com".
Proof. vm_compute. reflexivity. Qed.

Example routes_of_conf :
  mux.template <$> mux.routes (mainRouter conf) = ["/go"; "/nh"].
Proof. reflexivity. Qed.

Example routes_skip_empty :
  mux.template <$> mux.routes
    (mainRouter {| FinalRedirect := "https://example.com";
                   RedirectRules := [emptyPathRule; goRule;
                                     {| Path := "/x"; URL := "";
                                        RedirectOptions := struct_lit |}] |})
  = ["/go"].
Proof. reflexivity. Qed.

Example bare_router_404 :
  status (mux.ServeHTTP String.eqb mux.NewRouter http.NewResponse (get "/go"))
  = Some 404%Z.
Proof. reflexivity. Qed.

Example clean_paths :
  mux.cleanPath "/go" = "/go" ∧ mux.cleanPath "/go/" = "/go/"
  ∧ mux.cleanPath "//go" = "/go" ∧ mux.cleanPath "/go/../nh" = "/nh"
  ∧ mux.cleanPath "" = "/" ∧ mux.cleanPath "*" = "/*".
Proof. repeat split. Qed.

Example serve_go :
  serve String.eqb conf (get "/go") = respond String.eqb conf (get "/go").
Proof. reflexivity. Qed.

Example serve_unclean :
  serve String.eqb conf (get "//go")
  = Some ({| http.Header := {[ "Location" := "/go" ]};
             http.Status := Some 301%Z |}, []).
Proof. reflexivity. Qed.

Example serve_options_star :
  status (serve String.eqb conf optionsStar) = Some 200%Z
  ∧ location (serve String.eqb conf optionsStar) = None.
Proof. split; reflexivity. Qed.

Example redirect_targets :
  http.target (get "/a/b") "c" = "/a/c"
  ∧ http.target (get "/a/b") "https://golang.org" = "https://golang.org"
  ∧ http.target (get "/unknown") "" = "/"
  ∧ http.target (get "/a/b/") "../x/?q=1" = "/a/x/?q=1"
  ∧ http.target (get "/a/b") "//host/x" = "//host/x".
Proof. repeat split. Qed.

Example serve_relative :
  location (serve String.eqb onlyRelative (get "/a/b")) = Some "/a/c".
Proof. vm_compute. reflexivity. Qed.

Example run_to_exit :
  (mainAt <$> run String.eqb conf
     [ServerStarts; Binds; Request (get "/go"); Signal os.Interrupt;
      ListenAndServeReturns (Some "http: Server closed");
      Request (get "/nh"); ShutdownReturns None]
     start) = Some (Exited 0).
Proof. reflexivity. Qed.

Example run_terminate_signal :
  (mainAt <$> run String.eqb conf [ServerStarts; Signal os.Terminate] start)
  = Some (Killed os.Terminate).
Proof. reflexivity. Qed.

Example no_reply_without_listener :
  run String.eqb conf
    [ServerStarts; ListenAndServeReturns (Some "listen tcp :80: bind: permission denied");
     Request (get "/go")] start = None.
Proof. reflexivity. Qed.

(** ** The registration loop *)

Lemma registerRule_valid (r : mux.Router) (v : URLRule) :
  valid v →
  registerRule r v = mux.HandleFunc r (Path v) (ruleHandler (URL v) (RedirectOptions v)).
Proof.
  intros [Hp Hu]. unfold registerRule.
  rewrite (bool_decide_eq_true_2 _ Hp), (bool_decide_eq_true_2 _ Hu). reflexivity.
Qed.

Lemma registerRule_skip (r : mux.Router) (v : URLRule) :
  ¬ valid v → registerRule r v = r.
Proof.
  intros Hn. unfold registerRule.
  destruct (decide (Path v ≠ "")) as [Hp|Hp].
  - destruct (decide (URL v ≠ "")) as [Hu|Hu].
    + destruct Hn. split; assumption.
    + rewrite (bool_decide_eq_false_2 _ Hu), andb_false_r. reflexivity.
  - rewrite (bool_decide_eq_false_2 _ Hp). reflexivity.
Qed.

(** The loop appends one route per valid rule, in configuration order, and
    leaves the not-found handler alone. *)
Lemma loop_routes (rules : list URLRule) (r : mux.Router) :
  mux.routes (foldl registerRule r rules)
  = mux.routes r ++ (routeOf <$> filter valid rules).
Proof.
  revert r. induction rules as [|v rules IH]; intros r; simpl.
  - rewrite app_nil_r. reflexivity.
  - rewrite IH, filter_cons. destruct (decide (valid v)) as [Hv|Hv].
    + rewrite registerRule_valid by assumption. simpl.
      rewrite <- app_assoc. reflexivity.
    + rewrite registerRule_skip by assumption. reflexivity.
Qed.

Lemma mainRouter_routes (c : Config) :
  mux.routes (mainRouter c) = routeOf <$> filter valid (RedirectRules c).
Proof. unfold mainRouter. simpl. rewrite loop_routes. reflexivity. Qed.

Lemma mainRouter_NotFoundHandler (c : Config) :
  mux.NotFoundHandler (mainRouter c) = Some (defaultHandler c).
Proof. reflexivity. Qed.

(** ** The status loop *)

(** The loop over the fields ends with 307 whenever it does not panic,
    that is, whenever each field called [permanently] holds a bool. *)
Lemma ruleStatusCode_temporary {T : Type} `{reflect.Struct T} (options : T) :
  (∀ i v, reflect.fields options !! i = Some ("permanently", v) →
          is_Some (reflect.Bool v)) →
  ruleStatusCode options = Some http.StatusTemporaryRedirect.
Proof.
  intros Hbool. unfold ruleStatusCode, reflect.NumField.
  assert (Hn : ∀ n, (n ≤ length (reflect.fields options))%nat →
    foldl (λ statusCode i, statusCode ≫= λ c, fieldStep options c i)
          (Some http.StatusTemporaryRedirect) (seq 0 n)
    = Some http.StatusTemporaryRedirect).
  { induction n as [|n IH]; intros Hle; [reflexivity|].
    rewrite seq_S, foldl_app, IH by lia. simpl.
    unfold fieldStep, reflect.FieldName, reflect.Field.
    destruct (lookup_lt_is_Some_2 (reflect.fields options) n) as [[name v] Hnv]; [lia|].
    rewrite Hnv. simpl.
    destruct (String.eqb name "permanently") eqn:Hname; [|reflexivity].
    apply String.eqb_eq in Hname. subst name.
    destruct (Hbool _ _ Hnv) as [b Hb]. rewrite Hb. simpl.
    destruct b; reflexivity. }
  apply Hn. lia.
Qed.

Lemma ruleStatusCode_struct_ (options : struct_) :
  ruleStatusCode options = Some http.StatusTemporaryRedirect.
Proof. reflexivity. Qed.

Lemma ruleHandler_struct_ (url : string) (options : struct_)
    (w : http.ResponseWriter) (req : http.Request) :
  ruleHandler url options w req
  = Some (http.Redirect w req url http.StatusTemporaryRedirect,
          [log.Println2 "Redirected User Rule Based: " url]).
Proof. reflexivity. Qed.

(** ** Dispatch *)

Section Routing.
Variable matchTemplate : string → string → bool.

(** The first valid rule whose template matches is the one that is found. *)
Lemma find_first_valid (rules : list URLRule) (i : nat) (v : URLRule)
    (req : http.Request) :
  rules !! i = Some v →
  valid v →
  matchTemplate (Path v) (http.URL_Path req) = true →
  (∀ j u, (j < i)%nat → rules !! j = Some u → valid u →
          matchTemplate (Path u) (http.URL_Path req) = false) →
  find (mux.route_matches matchTemplate req) (routeOf <$> filter valid rules)
  = Some (routeOf v).
Proof.
  revert i. induction rules as [|u rules IH]; intros i Hi Hv Hm Hearlier.
  - destruct i; discriminate.
  - rewrite filter_cons. destruct i as [|i]; simpl in Hi.
    + injection Hi as ->. rewrite decide_True by assumption. simpl.
      unfold mux.route_matches at 1. simpl. rewrite Hm. reflexivity.
    + assert (Hrest : find (mux.route_matches matchTemplate req)
                        (routeOf <$> filter valid rules) = Some (routeOf v)).
      { apply (IH i); try assumption.
        intros j u' Hj Hu'. apply (Hearlier (S j)); [lia|exact Hu']. }
      destruct (decide (valid u)) as [Hu|Hu]; [|exact Hrest].
      simpl. unfold mux.route_matches at 1. simpl.
      rewrite (Hearlier 0%nat u) by (try lia; done). exact Hrest.
Qed.

Lemma find_no_valid (rules : list URLRule) (req : http.Request) :
  (∀ u, u ∈ rules → valid u →
        matchTemplate (Path u) (http.URL_Path req) = false) →
  find (mux.route_matches matchTemplate req) (routeOf <$> filter valid rules) = None.
Proof.
  induction rules as [|u rules IH]; intros Hnone; [reflexivity|].
  rewrite filter_cons.
  assert (Hrest : find (mux.route_matches matchTemplate req)
                    (routeOf <$> filter valid rules) = None).
  { apply IH. intros u' Hin. apply Hnone. right. exact Hin. }
  destruct (decide (valid u)) as [Hu|Hu]; [|exact Hrest].
  simpl. unfold mux.route_matches at 1. simpl.
  rewrite (Hnone u) by (try left; done). exact Hrest.
Qed.

(** Whatever is found is the route of some valid rule that matches. *)
Lemma find_some_valid (rules : list URLRule) (req : http.Request) (rt : mux.Route) :
  find (mux.route_matches matchTemplate req) (routeOf <$> filter valid rules) = Some rt →
  ∃ v, v ∈ rules ∧ valid v ∧ rt = routeOf v ∧
       matchTemplate (Path v) (http.URL_Path req) = true.
Proof.
  induction rules as [|u rules IH]; intros Hfind; [discriminate|].
  rewrite filter_cons in Hfind.
  destruct (decide (valid u)) as [Hu|Hu].
  - simpl in Hfind.
    destruct (mux.route_matches matchTemplate req (routeOf u)) eqn:Hm.
    + injection Hfind as <-. exists u. repeat split; try apply Hu; [left|exact Hm].
    + destruct (IH Hfind) as (v & Hin & Hv). exists v. split; [right; exact Hin|exact Hv].
  - destruct (IH Hfind) as (v & Hin & Hv). exists v. split; [right; exact Hin|exact Hv].
Qed.

End Routing.

(** ** Replies of the server *)

Section Replies.
Variable matchTemplate : string → string → bool.

Lemma respond_first_valid (c : Config) (i : nat) (v : URLRule) (req : http.Request) :
  RedirectRules c !! i = Some v →
  valid v →
  matchTemplate (Path v) (http.URL_Path req) = true →
  (∀ j u, (j < i)%nat → RedirectRules c !! j = Some u → valid u →
          matchTemplate (Path u) (http.URL_Path req) = false) →
  respond matchTemplate c req
  = Some (http.Redirect http.NewResponse req (URL v) http.StatusTemporaryRedirect,
          [log.Println2 "Redirected User Rule Based: " (URL v)]).
Proof.
  intros Hi Hv Hm Hearlier. unfold respond, mux.dispatch, mux.Match.
  rewrite mainRouter_routes.
  rewrite (find_first_valid matchTemplate _ i v req Hi Hv Hm Hearlier).
  reflexivity.
Qed.

Lemma respond_default (c : Config) (req : http.Request) :
  (∀ u, u ∈ RedirectRules c → valid u →
        matchTemplate (Path u) (http.URL_Path req) = false) →
  respond matchTemplate c req
  = Some (http.Redirect http.NewResponse req (FinalRedirect c)
            http.StatusTemporaryRedirect,
          [log.Println2 "Redirected User with Default: " (FinalRedirect c)]).
Proof.
  intros Hnone. unfold respond, mux.dispatch, mux.Match.
  rewrite mainRouter_routes, (find_no_valid matchTemplate _ req Hnone).
  reflexivity.
Qed.

(** Every reply comes from one of the two closures of [main]. *)
Lemma respond_cases (c : Config) (req : http.Request) :
  (∃ v, v ∈ RedirectRules c ∧ valid v ∧
        matchTemplate (Path v) (http.URL_Path req) = true ∧
        respond matchTemplate c req
        = Some (http.Redirect http.NewResponse req (URL v)
                  http.StatusTemporaryRedirect,
                [log.Println2 "Redirected User Rule Based: " (URL v)]))
  ∨ respond matchTemplate c req
    = Some (http.Redirect http.NewResponse req (FinalRedirect c)
              http.StatusTemporaryRedirect,
            [log.Println2 "Redirected User with Default: " (FinalRedirect c)]).
Proof.
  unfold respond, mux.dispatch, mux.Match. rewrite mainRouter_routes.
  destruct (find (mux.route_matches matchTemplate req)
              (routeOf <$> filter valid (RedirectRules c))) as [rt|] eqn:Hfind.
  - left. apply find_some_valid in Hfind as (v & Hin & Hv & -> & Hm).
    exists v. repeat split; try assumption; apply Hv.
  - right. reflexivity.
Qed.

End Replies.

Lemma Redirect_location (w : http.ResponseWriter) (req : http.Request)
    (url : string) (code : Z) :
  http.Header (http.Redirect w req url code) !! "Location"
  = Some (http.target req url).
Proof.
  unfold http.Redirect. simpl.
  destruct (negb _ && _).
  - rewrite lookup_insert_ne by discriminate. apply lookup_insert_eq.
  - apply lookup_insert_eq.
Qed.

(** A scheme in front of the whole target is one in front of the part
    before the fragment. *)
Lemma scanScheme_before_fragment (first : bool) (s : string) :
  urlpkg.scanScheme first s = urlpkg.Scheme →
  urlpkg.scanScheme first (bytes.cutAt "#" s).1 = urlpkg.Scheme.
Proof.
  revert first. induction s as [|c s IH]; intros first Hs; [discriminate|].
  cbn [bytes.cutAt]. destruct (Ascii.eqb c "#") eqn:Hc.
  - apply Ascii.eqb_eq in Hc. subst c. destruct first; discriminate Hs.
  - cbn [fst urlpkg.scanScheme] in *. destruct (bytes.isAlpha c); [apply IH; exact Hs|].
    destruct (bytes.isDigit c || bytes.oneOf "+-." c).
    + destruct first; [discriminate|]. apply IH. exact Hs.
    + destruct (Ascii.eqb c ":"); [exact Hs|discriminate].
Qed.

Lemma scanScheme_not_star (s : string) :
  urlpkg.scanScheme true s = urlpkg.Scheme → String.eqb s "*" = false.
Proof.
  intros Hs. destruct (String.eqb s "*") eqn:He; [|reflexivity].
  apply String.eqb_eq in He. subst s. discriminate.
Qed.

Lemma hexEscapeNonASCII_ascii (s : string) :
  bytes.all bytes.isASCII s = true → http.hexEscapeNonASCII s = s.
Proof.
  induction s as [|c s IH]; intros Ha; [reflexivity|]. simpl in *.
  apply andb_prop in Ha as [Hc Hs]. rewrite Hc, (IH Hs). reflexivity.
Qed.

(** [Redirect] hands an absolute target on as it is. *)
Lemma target_absolute (req : http.Request) (url : string) :
  http.absolute url = true → http.target req url = url.
Proof.
  unfold http.absolute, http.target, urlpkg.relative. intros Habs.
  destruct (urlpkg.scanScheme true url) eqn:Hs; try discriminate.
  pose proof (scanScheme_before_fragment true url Hs) as Hu.
  rewrite (scanScheme_not_star _ Hu), Hu.
  destruct (negb _); apply hexEscapeNonASCII_ascii; exact Habs.
Qed.

Lemma Redirect_location_absolute (w : http.ResponseWriter) (req : http.Request)
    (url : string) (code : Z) :
  http.absolute url = true →
  http.Header (http.Redirect w req url code) !! "Location" = Some url.
Proof. intros Habs. rewrite Redirect_location, target_absolute by exact Habs. reflexivity. Qed.

(** The canonical form of a path starts with a slash. *)
Lemma hasPrefix_slash (s : string) : bytes.hasPrefix (String "/" s) "/" = true.
Proof.
  unfold bytes.hasPrefix. cbn [String.prefix].
  destruct (ascii_dec "/" "/") as [_|Hne]; [destruct s; reflexivity|].
  destruct Hne. reflexivity.
Qed.

Lemma hasPrefix_slash_inv (s : string) :
  bytes.hasPrefix s "/" = true → ∃ t, s = String "/" t.
Proof.
  unfold bytes.hasPrefix. destruct s as [|c s]; cbn [String.prefix]; [discriminate|].
  destruct (ascii_dec "/" c) as [<-|]; [|discriminate]. intros _. eexists. reflexivity.
Qed.

Lemma Clean_rooted (s : string) :
  ∃ t, path.Clean (String "/" s) = String "/" t.
Proof.
  unfold path.Clean. rewrite hasPrefix_slash. eexists. reflexivity.
Qed.

Lemma cleanPath_rooted (p : string) : ∃ t, mux.cleanPath p = String "/" t.
Proof.
  unfold mux.cleanPath. destruct (String.eqb p ""); [eexists; reflexivity|].
  destruct (bytes.hasPrefix p "/") eqn:Hp.
  - apply hasPrefix_slash_inv in Hp as [s ->].
    destruct (Clean_rooted s) as [t Ht]. rewrite Ht.
    destruct (_ && _); eexists; reflexivity.
  - change ("/" +:+ p) with (String "/" p).
    destruct (Clean_rooted p) as [t Ht]. rewrite Ht.
    destruct (_ && _); eexists; reflexivity.
Qed.

Lemma canonical_not_star (req : http.Request) :
  canonical req → http.isOptionsStar req = false.
Proof.
  unfold canonical, http.isOptionsStar. intros Hc.
  destruct (cleanPath_rooted (http.URL_Path req)) as [t Ht].
  rewrite Hc in Ht. rewrite Ht. apply andb_false_r.
Qed.

Lemma Redirect_is_redirect (w : http.ResponseWriter) (req : http.Request)
    (url : string) :
  http.is_redirect (http.Redirect w req url http.StatusTemporaryRedirect) = true.
Proof.
  unfold http.is_redirect. rewrite Redirect_location. reflexivity.
Qed.

(** ** The server in front of the routes *)

Section Serving.
Variable matchTemplate : string → string → bool.

(** A request in canonical form reaches the routes. *)
Lemma serve_canonical (c : Config) (req : http.Request) :
  canonical req → serve matchTemplate c req = respond matchTemplate c req.
Proof.
  intros Hc. unfold serve, http.serverHandler.
  rewrite (canonical_not_star req Hc). unfold mux.ServeHTTP.
  rewrite Hc, String.eqb_refl. reflexivity.
Qed.

(** Any other request, [OPTIONS *] apart, is answered by the router. *)
Lemma serve_not_canonical (c : Config) (req : http.Request) :
  ¬ canonical req →
  http.isOptionsStar req = false →
  serve matchTemplate c req
  = Some ({| http.Header :=
               {[ "Location" := urlpkg.String_ (mux.cleanPath (http.URL_Path req))
                                  (http.URL_ForceQuery req)
                                  (http.URL_RawQuery req) ]};
             http.Status := Some http.StatusMovedPermanently |}, []).
Proof.
  intros Hc Ho. unfold serve, http.serverHandler. rewrite Ho.
  unfold mux.ServeHTTP.
  destruct (String.eqb (mux.cleanPath (http.URL_Path req)) (http.URL_Path req)) eqn:He.
  - apply String.eqb_eq in He. destruct (Hc He).
  - reflexivity.
Qed.

Lemma serve_options_star_reply (c : Config) (req : http.Request) :
  http.isOptionsStar req = true →
  serve matchTemplate c req
  = Some ({| http.Header := {[ "Content-Length" := "0" ]};
             http.Status := Some http.StatusOK |}, []).
Proof. intros Ho. unfold serve, http.serverHandler. rewrite Ho. reflexivity. Qed.

End Serving.

Lemma canonical_dec (req : http.Request) : canonical req ∨ ¬ canonical req.
Proof.
  unfold canonical.
  destruct (String.eqb (mux.cleanPath (http.URL_Path req)) (http.URL_Path req)) eqn:He.
  - left. apply String.eqb_eq. exact He.
  - right. apply String.eqb_neq. exact He.
Qed.

(** Requests for the two paths of the literal configuration reach the
    routes. *)
Lemma serve_literal_paths (matchTemplate : string → string → bool)
    (c : Config) (req : http.Request) :
  http.URL_Path req = "/go" ∨ http.URL_Path req = "/nh" →
  serve matchTemplate c req = respond matchTemplate c req.
Proof.
  intros Hp. apply serve_canonical. unfold canonical.
  destruct Hp as [-> | ->]; reflexivity.
Qed.

(** C1: for every rule that the loop registers and every request that matches
    its path, the handler of the rule computes status 307, and so does the
    server's reply; the loop over the option fields computes 307 for every
    option struct whose [permanently] fields hold bools, whatever their
    values, because the branch for [permanently == true] assigns 307 too. *)
Theorem rule_status_always_temporary
    (matchTemplate : string → string → bool) (c : Config) (v : URLRule)
    (w : http.ResponseWriter) (req : http.Request) :
  v ∈ RedirectRules c →
  valid v →
  matchTemplate (Path v) (http.URL_Path req) = true →
  routeOf v ∈ mux.routes (mainRouter c)
  ∧ status (mux.handler (routeOf v) w req) = Some 307%Z
  ∧ status (respond matchTemplate c req) = Some 307%Z
  ∧ ∀ (T : Type) (S : reflect.Struct T) (options : T) (url : string),
      (∀ i x, reflect.fields options !! i = Some ("permanently", x) →
              is_Some (reflect.Bool x)) →
      ruleStatusCode options = Some 307%Z
      ∧ status (ruleHandler url options w req) = Some 307%Z.
Proof.
  intros Hin Hv Hm. split; [|split; [|split]].
  - rewrite mainRouter_routes. apply list_elem_of_fmap. exists v.
    split; [reflexivity|]. apply list_elem_of_filter. split; assumption.
  - reflexivity.
  - destruct (respond_cases matchTemplate c req) as [(u & _ & _ & _ & ->)| ->];
      reflexivity.
  - intros T S options url Hbool.
    pose proof (ruleStatusCode_temporary options Hbool) as Hs.
    split; [exact Hs|]. unfold ruleHandler. rewrite Hs. reflexivity.
Qed.

Lemma rule_status_always_temporary_witness :
  status (respond String.eqb conf (get "/go")) = Some 307%Z
  ∧ ∀ b : bool,
      @ruleStatusCode bool (λ p, [("permanently", reflect.ValueOfBool p)]) b
      = Some 307%Z.
Proof.
  pose proof (rule_status_always_temporary String.eqb conf goRule
                http.NewResponse (get "/go")) as Hthm.
  destruct Hthm as (_ & _ & Hreply & Hloop).
  - left.
  - split; discriminate.
  - reflexivity.
  - split; [exact Hreply|]. intros b.
    apply (Hloop bool (λ p, [("permanently", reflect.ValueOfBool p)]) b "").
    intros [|[|i]] x Hx; simpl in Hx; try discriminate.
    injection Hx as <-. eexists. reflexivity.
Defined.

(** C2, as stated, fails: with two rules for [/go], the second rule is in
    the configuration, has a non-empty path and URL, and its pattern matches
    the request for [/go]; the reply carries the URL of the first rule. *)
Lemma shadowed_rule_location :
  goDevRule ∈ RedirectRules twiceGo
  ∧ Path goDevRule ≠ "" ∧ URL goDevRule ≠ ""
  ∧ String.eqb (Path goDevRule) (http.URL_Path (get "/go")) = true
  ∧ location (serve String.eqb twiceGo (get "/go")) = Some "https://golang.org"
  ∧ location (serve String.eqb twiceGo (get "/go")) ≠ Some (URL goDevRule).
Proof.
  split; [right; left|]. split; [discriminate|]. split; [discriminate|].
  split; [reflexivity|]. split; [vm_compute; reflexivity|].
  vm_compute. discriminate.
Qed.

(** C2, amended: for every rule of the configuration with non-empty path and
    a URL that is absolute (a scheme in front, ASCII throughout), a request
    whose path is in canonical form and matches the rule's pattern and the
    pattern of no valid rule before it in the configuration gets a redirect
    whose [Location] header is that rule's URL, with status 307; the route
    registered for the rule carries a handler that redirects to the rule's
    own URL whenever it is called. *)
Theorem first_matching_rule_location
    (matchTemplate : string → string → bool) (c : Config) (i : nat)
    (v : URLRule) (req : http.Request) :
  RedirectRules c !! i = Some v →
  Path v ≠ "" →
  URL v ≠ "" →
  http.absolute (URL v) = true →
  canonical req →
  matchTemplate (Path v) (http.URL_Path req) = true →
  (∀ j u, (j < i)%nat → RedirectRules c !! j = Some u → valid u →
          matchTemplate (Path u) (http.URL_Path req) = false) →
  location (serve matchTemplate c req) = Some (URL v)
  ∧ status (serve matchTemplate c req) = Some 307%Z
  ∧ (∃ rt, rt ∈ mux.routes (mainRouter c) ∧ mux.template rt = Path v ∧
       ∀ w' req', location (mux.handler rt w' req') = Some (URL v)).
Proof.
  intros Hi Hp Hu Habs Hcanon Hm Hearlier.
  assert (Hv : valid v) by (split; assumption).
  rewrite (serve_canonical matchTemplate c req Hcanon).
  rewrite (respond_first_valid matchTemplate c i v req Hi Hv Hm Hearlier).
  split; [apply Redirect_location_absolute; exact Habs|]. split; [reflexivity|].
  exists (routeOf v). split; [|split; [reflexivity|]].
  - rewrite mainRouter_routes. apply list_elem_of_fmap. exists v.
    split; [reflexivity|]. apply list_elem_of_filter. split; [exact Hv|].
    apply list_elem_of_lookup. exists i. exact Hi.
  - intros w' req'. apply Redirect_location_absolute. exact Habs.
Qed.

Lemma first_matching_rule_location_witness :
  location (serve String.eqb conf (get "/nh")) = Some "https://nhalstead.me".
Proof.
  apply (first_matching_rule_location String.eqb conf 1 nhRule (get "/nh")).
  - reflexivity.
  - discriminate.
  - discriminate.
  - reflexivity.
  - reflexivity.
  - reflexivity.
  - intros [|j] u Hj Hu _; [|lia]. injection Hu as <-. reflexivity.
Defined.

(** C3, as stated, fails: the path [//unknown] matches the pattern of no
    rule of the literal configuration, and the reply is not the redirect of
    the not-found handler: the router answers itself, with status 301 and
    the cleaned path as [Location], and nothing is logged. *)
Lemma unclean_path_not_default :
  (∀ rt, rt ∈ mux.routes (mainRouter conf) →
         String.eqb (mux.template rt) (http.URL_Path (get "//unknown")) = false)
  ∧ serve String.eqb conf (get "//unknown")
    = Some ({| http.Header := {[ "Location" := "/unknown" ]};
               http.Status := Some 301%Z |}, [])
  ∧ status (serve String.eqb conf (get "//unknown")) ≠ Some 307%Z
  ∧ location (serve String.eqb conf (get "//unknown")) ≠ Some (FinalRedirect conf).
Proof.
  split; [|split; [reflexivity|split; vm_compute; discriminate]].
  intros rt Hin.
  change (mux.routes (mainRouter conf)) with [routeOf goRule; routeOf nhRule] in Hin.
  apply elem_of_cons in Hin as [->|Hin]; [reflexivity|].
  apply elem_of_cons in Hin as [->|Hin]; [reflexivity|].
  apply elem_of_nil in Hin. destruct Hin.
Qed.

(** C3, amended: a request whose path is in canonical form and matches the
    pattern of no registered rule gets the reply of the not-found handler: a
    redirect with status 307 to [FinalRedirect]; the [Location] header is
    [FinalRedirect] itself when that is an absolute URL. *)
Theorem unmatched_request_default
    (matchTemplate : string → string → bool) (c : Config) (req : http.Request) :
  canonical req →
  (∀ rt, rt ∈ mux.routes (mainRouter c) →
         matchTemplate (mux.template rt) (http.URL_Path req) = false) →
  serve matchTemplate c req
  = defaultHandler c http.NewResponse req
  ∧ status (serve matchTemplate c req) = Some 307%Z
  ∧ (http.absolute (FinalRedirect c) = true →
     location (serve matchTemplate c req) = Some (FinalRedirect c))
  ∧ (∃ w lines, serve matchTemplate c req = Some (w, lines) ∧
                http.is_redirect w = true).
Proof.
  intros Hcanon Hnone.
  assert (Hrules : ∀ u, u ∈ RedirectRules c → valid u →
            matchTemplate (Path u) (http.URL_Path req) = false).
  { intros u Hin Hu. apply (Hnone (routeOf u)).
    rewrite mainRouter_routes. apply list_elem_of_fmap. exists u.
    split; [reflexivity|]. apply list_elem_of_filter. split; assumption. }
  rewrite (serve_canonical matchTemplate c req Hcanon).
  rewrite (respond_default matchTemplate c req Hrules).
  split; [reflexivity|]. split; [reflexivity|].
  split; [intros Habs; apply Redirect_location_absolute; exact Habs|].
  eexists _, _. split; [reflexivity|]. apply Redirect_is_redirect.
Qed.

Lemma unmatched_request_default_witness :
  location (serve String.eqb conf (get "/unknown")) = Some "https://example.com"
  ∧ status (serve String.eqb conf (get "/unknown")) = Some 307%Z.
Proof.
  destruct (unmatched_request_default String.eqb conf (get "/unknown"))
    as (_ & Hs & Hl & _).
  - reflexivity.
  - intros rt Hin.
    change (mux.routes (mainRouter conf)) with [routeOf goRule; routeOf nhRule] in Hin.
    apply elem_of_cons in Hin as [->|Hin]; [reflexivity|].
    apply elem_of_cons in Hin as [->|Hin]; [reflexivity|].
    apply elem_of_nil in Hin. destruct Hin.
  - split; [apply Hl; reflexivity|exact Hs].
Defined.

(** C4, as stated, fails at the case it singles out: with the rule of the
    empty path as the only rule, the rule is not registered, and the request
    with the empty path does not get the default redirect: the empty path is
    not in canonical form, and the router answers with status 301 and
    [Location] [/]. *)
Lemma empty_path_not_default :
  Path emptyPathRule = ""
  ∧ mux.routes (mainRouter onlyEmptyPath) = []
  ∧ serve String.eqb onlyEmptyPath (get "")
    = Some ({| http.Header := {[ "Location" := "/" ]};
               http.Status := Some 301%Z |}, [])
  ∧ serve String.eqb onlyEmptyPath (get "")
    ≠ defaultHandler onlyEmptyPath http.NewResponse (get "")
  ∧ location (serve String.eqb onlyEmptyPath (get ""))
    ≠ Some (FinalRedirect onlyEmptyPath).
Proof.
  split; [reflexivity|]. split; [reflexivity|]. split; [reflexivity|].
  split; vm_compute; discriminate.
Qed.

(** C4, amended: a rule whose path or URL is empty is not registered.  Every
    route of the router stems from a rule with non-empty path and URL; the
    router built from a configuration that holds such a rule has the routes
    of the configuration without it, so every request is answered as if the
    rule were absent; and a request in canonical form that no valid rule
    matches gets the default redirect, whatever the pattern of the skipped
    rule.  The empty path is not in canonical form: a request with the empty
    path is answered by the router with status 301 and [Location] [/].  The
    loop is a total function into routers: skipping reports nothing. *)
Theorem empty_rule_never_registered
    (matchTemplate : string → string → bool) (final : string)
    (before after : list URLRule) (v : URLRule) :
  Path v = "" ∨ URL v = "" →
  let c := {| FinalRedirect := final; RedirectRules := before ++ v :: after |} in
  let c' := {| FinalRedirect := final; RedirectRules := before ++ after |} in
  (∀ rt, rt ∈ mux.routes (mainRouter c) →
         ∃ u, u ∈ before ++ after ∧ Path u ≠ "" ∧ URL u ≠ "" ∧ rt = routeOf u)
  ∧ mux.routes (mainRouter c) = mux.routes (mainRouter c')
  ∧ registerRule (foldl registerRule mux.NewRouter before) v
    = foldl registerRule mux.NewRouter before
  ∧ (∀ req, serve matchTemplate c req = serve matchTemplate c' req)
  ∧ (∀ req,
       canonical req →
       (∀ u, u ∈ before ++ after → valid u →
             matchTemplate (Path u) (http.URL_Path req) = false) →
       serve matchTemplate c req = defaultHandler c http.NewResponse req
       ∧ status (serve matchTemplate c req) = Some 307%Z
       ∧ (http.absolute final = true →
          location (serve matchTemplate c req) = Some final))
  ∧ (∀ req,
       http.URL_Path req = "" →
       serve matchTemplate c req
       = Some ({| http.Header :=
                    {[ "Location" := urlpkg.String_ "/" (http.URL_ForceQuery req)
                                       (http.URL_RawQuery req) ]};
                  http.Status := Some 301%Z |}, [])).
Proof.
  intros Hempty c c'.
  assert (Hv : ¬ valid v) by (intros [Hp Hu]; destruct Hempty; contradiction).
  assert (Hroutes : mux.routes (mainRouter c) = mux.routes (mainRouter c')).
  { rewrite !mainRouter_routes. unfold c, c'. simpl.
    rewrite !filter_app, filter_cons, decide_False by exact Hv. reflexivity. }
  assert (Hsame : ∀ req, respond matchTemplate c req = respond matchTemplate c' req).
  { intros req. unfold respond, mux.dispatch, mux.Match.
    rewrite Hroutes. reflexivity. }
  assert (Hserve : ∀ req, serve matchTemplate c req = serve matchTemplate c' req).
  { intros req. unfold serve, http.serverHandler, mux.ServeHTTP.
    change (mux.dispatch matchTemplate (mainRouter c) http.NewResponse req)
      with (respond matchTemplate c req).
    rewrite Hsame. reflexivity. }
  split; [|split; [exact Hroutes|split; [apply registerRule_skip; exact Hv|
          split; [exact Hserve|split]]]].
  - intros rt Hin. rewrite Hroutes, mainRouter_routes in Hin.
    apply list_elem_of_fmap in Hin as (u & -> & Hu).
    apply list_elem_of_filter in Hu as [[Hp Hq] Hu].
    exists u. repeat split; assumption.
  - intros req Hcanon Hnone. rewrite Hserve.
    rewrite (serve_canonical matchTemplate c' req Hcanon).
    rewrite (respond_default matchTemplate c' req Hnone).
    split; [reflexivity|]. split; [reflexivity|].
    intros Habs. apply Redirect_location_absolute. exact Habs.
  - intros req Hpath. rewrite serve_not_canonical.
    + rewrite Hpath. reflexivity.
    + unfold canonical. rewrite Hpath. discriminate.
    + unfold http.isOptionsStar. rewrite Hpath. apply andb_false_r.
Qed.

Lemma empty_rule_never_registered_witness :
  mux.routes (mainRouter onlyEmptyPath) = []
  ∧ location (serve String.eqb onlyEmptyPath (get "/"))
    = Some "https://example.com".
Proof.
  destruct (empty_rule_never_registered String.eqb "https://example.com"
              [] [] emptyPathRule) as (_ & Hroutes & _ & _ & Hdefault & _).
  - left. reflexivity.
  - split; [exact Hroutes|].
    destruct (Hdefault (get "/")) as (_ & _ & Hl).
    + reflexivity.
    + intros u Hu. apply elem_of_nil in Hu. destruct Hu.
    + apply Hl. reflexivity.
Defined.

(** C5, as stated, fails: the option value of the first rule of the literal
    configuration has no field at all, so the loop over its fields visits
    none, and in particular no bool field called [permanently]. *)
Lemma options_have_no_field :
  reflect.NumField (RedirectOptions goRule) = 0%nat
  ∧ seq 0 (reflect.NumField (RedirectOptions goRule)) = []
  ∧ ¬ (∃ b, reflect.fields (RedirectOptions goRule)
            = [("permanently", reflect.ValueOfBool b)]).
Proof.
  split; [reflexivity|]. split; [reflexivity|].
  intros [b Hb]. discriminate Hb.
Qed.

(** C5, amended: the type of [RedirectOptions] is the empty struct; for every
    rule's options value the field iteration of the handler visits no field,
    so the test for a field named [permanently] is never evaluated and the
    status stays at its initial value 307. *)
Theorem options_iteration_visits_nothing (v : URLRule) :
  reflect.fields (RedirectOptions v) = []
  ∧ reflect.NumField (RedirectOptions v) = 0%nat
  ∧ seq 0 (reflect.NumField (RedirectOptions v)) = []
  ∧ (∀ i, reflect.FieldName (RedirectOptions v) i = None)
  ∧ ruleStatusCode (RedirectOptions v) = Some http.StatusTemporaryRedirect.
Proof.
  destruct v as [path url []]. simpl.
  split; [reflexivity|]. split; [reflexivity|]. split; [reflexivity|].
  split; [intros i; reflexivity|reflexivity].
Qed.




(** C10, as stated, fails: for the path [//go] the server answers with a
    redirect, but neither a rule's handler nor the not-found handler runs:
    the router replies itself, with status 301, and nothing is logged; and
    the request [OPTIONS *] is answered by the server with status 200 and no
    [Location]. *)
Lemma reply_without_handler :
  serve String.eqb conf (get "//go")
  = Some ({| http.Header := {[ "Location" := "/go" ]};
             http.Status := Some 301%Z |}, [])
  ∧ serve String.eqb conf (get "//go")
    ≠ mux.handler (routeOf goRule) http.NewResponse (get "//go")
  ∧ serve String.eqb conf (get "//go")
    ≠ mux.handler (routeOf nhRule) http.NewResponse (get "//go")
  ∧ serve String.eqb conf (get "//go")
    ≠ defaultHandler conf http.NewResponse (get "//go")
  ∧ serve String.eqb conf optionsStar
    = Some ({| http.Header := {[ "Content-Length" := "0" ]};
               http.Status := Some 200%Z |}, [])
  ∧ (∀ w lines, serve String.eqb conf optionsStar = Some (w, lines) →
                http.is_redirect w = false).
Proof.
  split; [reflexivity|].
  split; [vm_compute; discriminate|]. split; [vm_compute; discriminate|].
  split; [vm_compute; discriminate|]. split; [reflexivity|].
  intros w lines Hr. injection Hr as <- _. reflexivity.
Qed.

(** C10, amended: every request other than [OPTIONS *] gets a redirect and
    none gets a 404.  A request whose path is in canonical form gets status
    307 from the handler of a rule or from the not-found handler; a request
    whose path is not gets status 301 from the router itself, to the path in
    canonical form, with no handler run and nothing logged.  [OPTIONS *] is
    answered by the server with status 200.  On a router without the
    not-found handler of [main] a request in canonical form would get 404. *)
Theorem every_request_redirected
    (matchTemplate : string → string → bool) (c : Config) (req : http.Request) :
  (∃ w lines,
      serve matchTemplate c req = Some (w, lines)
      ∧ http.Status w ≠ Some http.StatusNotFound
      ∧ (http.isOptionsStar req = true →
         http.Status w = Some 200%Z ∧ lines = [])
      ∧ (http.isOptionsStar req = false →
         http.is_redirect w = true
         ∧ (canonical req →
            http.Status w = Some 307%Z
            ∧ ((∃ v, v ∈ RedirectRules c ∧ valid v ∧
                     serve matchTemplate c req
                     = mux.handler (routeOf v) http.NewResponse req)
               ∨ serve matchTemplate c req
                 = defaultHandler c http.NewResponse req))
         ∧ (¬ canonical req →
            http.Status w = Some 301%Z ∧ lines = []
            ∧ http.Header w !! "Location"
              = Some (urlpkg.String_ (mux.cleanPath (http.URL_Path req))
                        (http.URL_ForceQuery req) (http.URL_RawQuery req)))))
  ∧ (canonical req →
     ∃ w lines,
       mux.ServeHTTP matchTemplate mux.NewRouter http.NewResponse req
       = Some (w, lines)
       ∧ http.is_redirect w = false
       ∧ http.Status w = Some http.StatusNotFound).
Proof.
  split.
  - destruct (http.isOptionsStar req) eqn:Ho.
    { rewrite (serve_options_star_reply matchTemplate c req Ho).
      eexists _, _. split; [reflexivity|]. split; [discriminate|].
      split; [intros _; split; reflexivity|discriminate]. }
    destruct (canonical_dec req) as [Hc|Hc].
    + rewrite (serve_canonical matchTemplate c req Hc).
      destruct (respond_cases matchTemplate c req)
        as [(v & Hin & Hv & Hm & Hr)|Hr]; rewrite Hr; eexists _, _;
        (split; [reflexivity|]); (split; [discriminate|]);
        (split; [discriminate|]); intros _;
        (split; [apply Redirect_is_redirect|]);
        (split; [|intros Hn; destruct (Hn Hc)]); intros _;
        (split; [reflexivity|]).
      * left. exists v. repeat split; try assumption; apply Hv.
      * right. reflexivity.
    + rewrite (serve_not_canonical matchTemplate c req Hc Ho).
      eexists _, _. split; [reflexivity|]. split; [discriminate|].
      split; [discriminate|]. intros _. split; [reflexivity|].
      split; [intros Hy; destruct (Hc Hy)|]. intros _.
      split; [reflexivity|]. split; [reflexivity|]. apply lookup_insert_eq.
  - intros Hc. unfold mux.ServeHTTP. rewrite Hc, String.eqb_refl.
    eexists _, _. split; [reflexivity|]. split; reflexivity.
Qed.

(** ** The control flow of [main] *)

Section LifecycleFacts.
Variable matchTemplate : string → string → bool.
Variable c : Config.

Ltac step_cases H :=
  unfold step, running in H;
  repeat match type of H with
         | context [match ?x with _ => _ end] => destruct x eqn:?
         end;
  simplify_eq; simpl in *.

(** What one event can do to the main path. *)
Lemma step_main (e : event) (p p' : process) :
  step matchTemplate c e p = Some p' →
  notified p' = notified p
  ∧ (mainAt p' = mainAt p
     ∨ (∃ s, e = Signal s ∧ s ∈ notified p ∧
             mainAt p = AtReceive ∧ mainAt p' = AtShutdown)
     ∨ (∃ s, e = Signal s ∧ (s ∉ notified p) ∧ mainAt p' = Killed s)
     ∨ (∃ err, e = ShutdownReturns err ∧
               mainAt p = AtShutdown ∧ mainAt p' = Exited 0)).
Proof.
  intros Hstep. step_cases Hstep; (split; [reflexivity|]);
    first [ left; congruence
          | right; left; eexists; repeat split; eauto; congruence
          | right; right; left; eexists; repeat split; eauto; congruence
          | right; right; right; eexists; repeat split; eauto; congruence ].
Qed.

Lemma step_stopped (e : event) (p : process) :
  running p = false → step matchTemplate c e p = None.
Proof. intros Hr. unfold step. rewrite Hr. reflexivity. Qed.

Lemma run_stopped (tr : list event) (p p' : process) :
  running p = false → run matchTemplate c tr p = Some p' → p' = p.
Proof.
  intros Hr Hrun. destruct tr as [|e tr]; simpl in Hrun.
  - congruence.
  - rewrite step_stopped in Hrun by exact Hr. discriminate.
Qed.

(** [os.Exit] is only ever called with 0. *)
Lemma run_exit_zero (tr : list event) (p0 p : process) (code : Z) :
  (∀ c0, mainAt p0 = Exited c0 → c0 = 0%Z) →
  run matchTemplate c tr p0 = Some p →
  mainAt p = Exited code →
  code = 0%Z.
Proof.
  revert p0. induction tr as [|e tr IH]; intros p0 H0 Hrun Hexit; simpl in Hrun.
  - injection Hrun as <-. apply H0. exact Hexit.
  - destruct (step matchTemplate c e p0) as [p1|] eqn:Hstep; [|discriminate]. simpl in Hrun.
    apply (IH p1); [|exact Hrun|exact Hexit].
    intros c0 Hc0. destruct (step_main _ _ _ Hstep) as [_ Hmain].
    destruct Hmain as [Hm|[(s & _ & _ & _ & Hm)|[(s & _ & _ & Hm)|(err & _ & _ & Hm)]]];
      rewrite Hm in Hc0.
    + apply H0. exact Hc0.
    + discriminate.
    + discriminate.
    + congruence.
Qed.

(** The main path leaves [<-c] only through a relayed signal. *)
Lemma run_leaves_receive (tr : list event) (p0 p : process) :
  notified p0 = [os.Interrupt] →
  mainAt p0 = AtReceive →
  run matchTemplate c tr p0 = Some p →
  mainAt p = AtShutdown ∨ (∃ code, mainAt p = Exited code) →
  Signal os.Interrupt ∈ tr.
Proof.
  revert p0. induction tr as [|e tr IH]; intros p0 Hn H0 Hrun Hleft; simpl in Hrun.
  - injection Hrun as <-. rewrite H0 in Hleft.
    destruct Hleft as [?|[? ?]]; discriminate.
  - destruct (step matchTemplate c e p0) as [p1|] eqn:Hstep; [|discriminate]. simpl in Hrun.
    destruct (step_main _ _ _ Hstep) as [Hn1 Hmain].
    destruct Hmain as [Hm|[(s & -> & Hs & _)|[(s & -> & _ & Hm)|(err & _ & Hm & _)]]].
    + right. apply (IH p1); try assumption; congruence.
    + rewrite Hn in Hs. apply list_elem_of_singleton in Hs as ->. left.
    + assert (p = p1) as ->.
      { apply (run_stopped tr); [|exact Hrun]. unfold running. rewrite Hm. reflexivity. }
      rewrite Hm in Hleft. destruct Hleft as [?|[? ?]]; discriminate.
    + congruence.
Qed.

Lemma run_notified (tr : list event) (p0 p : process) :
  run matchTemplate c tr p0 = Some p → notified p = notified p0.
Proof.
  revert p0. induction tr as [|e tr IH]; intros p0 Hrun; simpl in Hrun.
  - congruence.
  - destruct (step matchTemplate c e p0) as [p1|] eqn:Hstep; [|discriminate]. simpl in Hrun.
    rewrite (IH p1 Hrun). apply (step_main _ _ _ Hstep).
Qed.

(** Without a signal the main path stays blocked on [<-c]. *)
Lemma run_stays_blocked (tr : list event) (p0 p : process) :
  mainAt p0 = AtReceive →
  (∀ s, Signal s ∉ tr) →
  run matchTemplate c tr p0 = Some p →
  mainAt p = AtReceive.
Proof.
  revert p0. induction tr as [|e tr IH]; intros p0 H0 Hnosig Hrun; simpl in Hrun.
  - congruence.
  - destruct (step matchTemplate c e p0) as [p1|] eqn:Hstep; [|discriminate]. simpl in Hrun.
    apply (IH p1); [| |exact Hrun].
    + destruct (step_main _ _ _ Hstep) as [_ Hmain].
      destruct Hmain as [Hm|[(s & -> & _)|[(s & -> & _)|(err & _ & Hm & _)]]].
      * congruence.
      * destruct (Hnosig s). left.
      * destruct (Hnosig s). left.
      * congruence.
    + intros s Hs. apply (Hnosig s). right. exact Hs.
Qed.

Lemma step_interrupt (p : process) :
  mainAt p = AtReceive →
  os.Interrupt ∈ notified p →
  step matchTemplate c (Signal os.Interrupt) p
  = Some {| mainAt := AtShutdown; serveAt := serveAt p; bound := bound p;
            notified := notified p;
            logged := logged p; sent := sent p |}.
Proof.
  destruct p as [m s b n l st]. simpl. intros -> Hin.
  unfold step. simpl. rewrite decide_True by exact Hin.
  reflexivity.
Qed.

Lemma step_shutdown_returns (p : process) (err : option string) :
  mainAt p = AtShutdown →
  step matchTemplate c (ShutdownReturns err) p
  = Some {| mainAt := Exited 0; serveAt := serveAt p; bound := bound p;
            notified := notified p;
            logged := logged p ++ ["Shutting Down."]; sent := sent p |}.
Proof. destruct p as [m s b n l st]. simpl. intros ->. reflexivity. Qed.

Lemma step_listen_returns (p : process) (err : option string) :
  running p = true →
  serveAt p = AtListenAndServe →
  step matchTemplate c (ListenAndServeReturns err) p
  = Some {| mainAt := mainAt p; serveAt := Returned; bound := bound p;
            notified := notified p;
            logged := logged p ++ logError err; sent := sent p |}.
Proof.
  destruct p as [m s b n l st]. simpl. intros Hr ->.
  unfold step. rewrite Hr. reflexivity.
Qed.

End LifecycleFacts.

(** C7: in every run of the process from the point where [main] blocks on
    the channel, an exit code is 0 and is produced only after the interrupt
    signal; when the main path is blocked, the interrupt signal takes it
    into [srv.Shutdown], and whatever [srv.Shutdown] returns, a clean drain
    ([nil]) or an error such as the exceeded deadline, the process logs and
    exits with code 0. *)
Theorem exit_code_always_zero
    (matchTemplate : string → string → bool) (c : Config)
    (tr : list event) (p : process) :
  run matchTemplate c tr start = Some p →
  (∀ code, mainAt p = Exited code → code = 0%Z ∧ Signal os.Interrupt ∈ tr)
  ∧ (mainAt p = AtReceive →
     ∀ err, ∃ p',
       run matchTemplate c [Signal os.Interrupt; ShutdownReturns err] p = Some p'
       ∧ mainAt p' = Exited 0
       ∧ logged p' = logged p ++ ["Shutting Down."])
  ∧ (mainAt p = AtShutdown →
     ∀ err, ∃ p',
       step matchTemplate c (ShutdownReturns err) p = Some p'
       ∧ mainAt p' = Exited 0
       ∧ logged p' = logged p ++ ["Shutting Down."]).
Proof.
  intros Hrun.
  pose proof (run_notified matchTemplate c tr start p Hrun) as Hn. simpl in Hn.
  split; [|split].
  - intros code Hexit. split.
    + apply (run_exit_zero matchTemplate c tr start p code); try assumption.
      intros c0 H0. discriminate H0.
    + apply (run_leaves_receive matchTemplate c tr start p); try reflexivity;
        [exact Hrun|]. right. exists code. exact Hexit.
  - intros Hm err. cbn [run].
    rewrite (step_interrupt matchTemplate c p Hm) by (rewrite Hn; left).
    cbn [mbind option_bind].
    rewrite step_shutdown_returns by reflexivity.
    eexists. split; [reflexivity|]. split; reflexivity.
  - intros Hm err. rewrite (step_shutdown_returns matchTemplate c p err Hm).
    eexists. split; [reflexivity|]. split; reflexivity.
Qed.

Lemma exit_code_always_zero_witness :
  (mainAt <$> run String.eqb conf
     [Signal os.Interrupt; ShutdownReturns (Some "context deadline exceeded")]
     servedGo) = Some (Exited 0)
  ∧ (mainAt <$> run String.eqb conf
       [Signal os.Interrupt; ShutdownReturns None] servedGo) = Some (Exited 0).
Proof.
  destruct (exit_code_always_zero String.eqb conf
              [ServerStarts; Binds; Request (get "/go")] servedGo) as (_ & Hint & _).
  - reflexivity.
  - destruct (Hint eq_refl (Some "context deadline exceeded")) as (p1 & Hr1 & Hm1 & _).
    destruct (Hint eq_refl None) as (p2 & Hr2 & Hm2 & _).
    rewrite Hr1, Hr2. simpl. rewrite Hm1, Hm2. split; reflexivity.
Defined.

(** C8: when [srv.ListenAndServe] returns an error while the process runs,
    the goroutine logs the error and returns: the error line is appended to
    the log, nothing else changes, the main path stays where it was, and the
    process keeps running.  If the main path was blocked on the channel it
    stays blocked through every later run of events without a signal, and
    every exit reached afterwards has code 0. *)
Theorem listen_error_only_logged
    (matchTemplate : string → string → bool) (c : Config)
    (p : process) (e : string) :
  running p = true →
  serveAt p = AtListenAndServe →
  ∃ p',
    step matchTemplate c (ListenAndServeReturns (Some e)) p = Some p'
    ∧ logged p' = logged p ++ [e]
    ∧ sent p' = sent p
    ∧ mainAt p' = mainAt p
    ∧ running p' = true
    ∧ serveAt p' = Returned
    ∧ (mainAt p = AtReceive →
       ∀ tr p'', (∀ s, Signal s ∉ tr) →
                 run matchTemplate c tr p' = Some p'' → mainAt p'' = AtReceive)
    ∧ (∀ tr p'' code, run matchTemplate c tr p' = Some p'' →
                      mainAt p'' = Exited code → code = 0%Z).
Proof.
  intros Hr Hs. eexists.
  split; [apply (step_listen_returns matchTemplate c p (Some e) Hr Hs)|].
  simpl. repeat split.
  - unfold running in *. simpl. exact Hr.
  - intros Hm tr p'' Hnosig Hrun.
    eapply (run_stays_blocked matchTemplate c tr); [|exact Hnosig|exact Hrun].
    exact Hm.
  - intros tr p'' code Hrun Hexit.
    eapply (run_exit_zero matchTemplate c tr); [|exact Hrun|exact Hexit].
    simpl. intros c0 Hc0. unfold running in Hr. rewrite Hc0 in Hr. discriminate.
Qed.

Lemma listen_error_only_logged_witness :
  run String.eqb conf
    [ServerStarts;
     ListenAndServeReturns (Some "listen tcp :80: bind: address already in use")]
    start
  = Some {| mainAt := AtReceive; serveAt := Returned; bound := false;
            notified := [os.Interrupt];
            logged := ["Server Started";
                       "listen tcp :80: bind: address already in use"];
            sent := [] |}.
Proof.
  destruct (listen_error_only_logged String.eqb conf listening
              "listen tcp :80: bind: address already in use")
    as (p' & Hstep & Hlog & Hsent & Hmain & _ & Hserve & _).
  - reflexivity.
  - reflexivity.
  - change (run String.eqb conf
              [ServerStarts;
               ListenAndServeReturns
                 (Some "listen tcp :80: bind: address already in use")] start)
      with (step String.eqb conf
              (ListenAndServeReturns
                 (Some "listen tcp :80: bind: address already in use")) listening
            ≫= run String.eqb conf []).
    rewrite Hstep. simpl. f_equal.
    unfold step in Hstep. simpl in Hstep. injection Hstep as <-. reflexivity.
Defined.

(** * Further properties of the router that [main] builds *)

Section MoreRouting.
Variable matchTemplate : string → string → bool.

Lemma respond_unfold (c : Config) (req : http.Request) :
  respond matchTemplate c req
  = match find (mux.route_matches matchTemplate req)
            (routeOf <$> filter valid (RedirectRules c)) with
    | Some rt => mux.handler rt http.NewResponse req
    | None => defaultHandler c http.NewResponse req
    end.
Proof.
  unfold respond, mux.dispatch, mux.Match. rewrite mainRouter_routes.
  reflexivity.
Qed.

Lemma find_none_valid (rules : list URLRule) (req : http.Request) :
  find (mux.route_matches matchTemplate req) (routeOf <$> filter valid rules) = None →
  ∀ u, u ∈ rules → valid u → matchTemplate (Path u) (http.URL_Path req) = false.
Proof.
  induction rules as [|v rules IH]; intros Hfind u Hin Hu.
  - apply elem_of_nil in Hin. destruct Hin.
  - rewrite filter_cons in Hfind. apply elem_of_cons in Hin as [->|Hin].
    + rewrite decide_True in Hfind by exact Hu. simpl in Hfind.
      unfold mux.route_matches at 1 in Hfind. simpl in Hfind.
      destruct (matchTemplate (Path v) (http.URL_Path req)); [discriminate|reflexivity].
    + apply IH; try assumption.
      destruct (decide (valid v)); [|exact Hfind]. simpl in Hfind.
      destruct (mux.route_matches matchTemplate req (routeOf v)); [discriminate|exact Hfind].
Qed.

(** Searching a concatenation: the first list is searched first. *)
Lemma find_append {A : Type} (f : A → bool) (l1 l2 : list A) :
  find f (l1 ++ l2) = match find f l1 with Some x => Some x | None => find f l2 end.
Proof.
  induction l1 as [|x l1 IH]; simpl; [reflexivity|].
  destruct (f x); [reflexivity|exact IH].
Qed.

Lemma find_routes_app (l1 l2 : list URLRule) (req : http.Request) :
  find (mux.route_matches matchTemplate req) (routeOf <$> filter valid (l1 ++ l2))
  = match find (mux.route_matches matchTemplate req) (routeOf <$> filter valid l1) with
    | Some rt => Some rt
    | None => find (mux.route_matches matchTemplate req) (routeOf <$> filter valid l2)
    end.
Proof. rewrite filter_app, fmap_app. apply find_append. Qed.

Lemma find_is_some (rules : list URLRule) (req : http.Request) (u : URLRule) :
  u ∈ rules → valid u → matchTemplate (Path u) (http.URL_Path req) = true →
  is_Some (find (mux.route_matches matchTemplate req) (routeOf <$> filter valid rules)).
Proof.
  intros Hin Hu Hm.
  destruct (find (mux.route_matches matchTemplate req)
              (routeOf <$> filter valid rules)) as [rt|] eqn:Hfind; [eexists; reflexivity|].
  rewrite (find_none_valid rules req Hfind u Hin Hu) in Hm. discriminate.
Qed.

End MoreRouting.




(** X2: when every target that the configuration names is an absolute URL,
    the [Location] of the reply to a request in canonical form is one of
    those targets: the default, or the URL of a rule with non-empty path and
    URL whose pattern matches the request. *)
Theorem location_is_configured
    (matchTemplate : string → string → bool) (c : Config) (req : http.Request) :
  canonical req →
  (∀ t, t ∈ targets c → http.absolute t = true) →
  ∃ url, location (serve matchTemplate c req) = Some url
         ∧ url ∈ targets c
         ∧ (url = FinalRedirect c
            ∨ ∃ v, v ∈ RedirectRules c ∧ Path v ≠ "" ∧ URL v ≠ "" ∧ url = URL v ∧
                   matchTemplate (Path v) (http.URL_Path req) = true).
Proof.
  intros Hcanon Habs. rewrite (serve_canonical matchTemplate c req Hcanon).
  destruct (respond_cases matchTemplate c req) as [(v & Hin & Hv & Hm & ->)| ->].
  - assert (Ht : URL v ∈ targets c).
    { right. apply list_elem_of_fmap. exists v. split; [reflexivity|].
      apply list_elem_of_filter. split; assumption. }
    exists (URL v). split; [apply Redirect_location_absolute, Habs, Ht|].
    split; [exact Ht|]. right. exists v. destruct Hv. repeat split; assumption.
  - assert (Ht : FinalRedirect c ∈ targets c) by left.
    exists (FinalRedirect c). split; [apply Redirect_location_absolute, Habs, Ht|].
    split; [exact Ht|left; reflexivity].
Qed.

Lemma location_is_configured_witness :
  ∃ url, location (serve String.eqb conf (get "/go")) = Some url
         ∧ url ∈ targets conf.
Proof.
  destruct (location_is_configured String.eqb conf (get "/go"))
    as (url & Hl & Ht & _).
  - reflexivity.
  - intros t Ht.
    apply elem_of_cons in Ht as [->|Ht]; [reflexivity|].
    apply elem_of_cons in Ht as [->|Ht]; [reflexivity|].
    apply elem_of_cons in Ht as [->|Ht]; [reflexivity|].
    apply elem_of_nil in Ht. destruct Ht.
  - exists url. split; assumption.
Defined.

(** X4: a request in canonical form is answered with exactly one log line;
    the line names, after the prefix of the closure that answered, the
    configured target that was handed to [http.Redirect], which is the
    [Location] header itself when the target is an absolute URL. *)
Theorem one_log_line_per_reply
    (matchTemplate : string → string → bool) (c : Config) (req : http.Request) :
  canonical req →
  ∃ w line url,
    serve matchTemplate c req = Some (w, [line])
    ∧ url ∈ targets c
    ∧ (http.absolute url = true → http.Header w !! "Location" = Some url)
    ∧ (line = "Redirected User Rule Based:  " +:+ url
       ∨ line = "Redirected User with Default:  " +:+ url).
Proof.
  intros Hcanon. rewrite (serve_canonical matchTemplate c req Hcanon).
  destruct (respond_cases matchTemplate c req) as [(v & Hin & Hv & _ & ->)| ->].
  - eexists _, _, (URL v). split; [reflexivity|]. split.
    { right. apply list_elem_of_fmap. exists v. split; [reflexivity|].
      apply list_elem_of_filter. split; assumption. }
    split; [apply Redirect_location_absolute|left; reflexivity].
  - eexists _, _, (FinalRedirect c). split; [reflexivity|]. split; [left|].
    split; [apply Redirect_location_absolute|right; reflexivity].
Qed.

Lemma one_log_line_per_reply_witness :
  ∃ w line, serve String.eqb conf (get "/go") = Some (w, [line]).
Proof.
  destruct (one_log_line_per_reply String.eqb conf (get "/go"))
    as (w & line & url & Hr & _).
  - reflexivity.
  - exists w, line. exact Hr.
Defined.

(** X5: the loop registers the rules that pass its guard in configuration
    order and nothing else: the templates of the routes are the paths of
    those rules; the router of a concatenated rule list has the routes of
    the first part followed by those of the second; and there are never
    more routes than rules. *)
Theorem routes_follow_configuration (final : string) (l1 l2 : list URLRule) :
  mux.template <$> mux.routes
    (mainRouter {| FinalRedirect := final; RedirectRules := l1 ++ l2 |})
  = Path <$> filter valid (l1 ++ l2)
  ∧ mux.routes (mainRouter {| FinalRedirect := final; RedirectRules := l1 ++ l2 |})
    = mux.routes (mainRouter {| FinalRedirect := final; RedirectRules := l1 |})
      ++ mux.routes (mainRouter {| FinalRedirect := final; RedirectRules := l2 |})
  ∧ (length (mux.routes
       (mainRouter {| FinalRedirect := final; RedirectRules := l1 ++ l2 |}))
     ≤ length l1 + length l2)%nat
  ∧ mux.routes (foldl registerRule
                  (foldl registerRule mux.NewRouter l1) l2)
    = mux.routes (mainRouter {| FinalRedirect := final; RedirectRules := l1 ++ l2 |}).
Proof.
  rewrite !mainRouter_routes. simpl. split; [|split; [|split]].
  - rewrite <- list_fmap_compose. reflexivity.
  - rewrite filter_app, fmap_app. reflexivity.
  - rewrite length_fmap, <- length_app. apply length_filter.
  - rewrite loop_routes, loop_routes, filter_app, fmap_app. reflexivity.
Qed.

(** X6: once a rule that passed the guard matches a request, rules added
    after it never change the reply to that request. *)
Theorem later_rules_do_not_override
    (matchTemplate : string → string → bool) (final : string)
    (l1 l2 : list URLRule) (u : URLRule) (req : http.Request) :
  u ∈ l1 →
  Path u ≠ "" →
  URL u ≠ "" →
  matchTemplate (Path u) (http.URL_Path req) = true →
  respond matchTemplate {| FinalRedirect := final; RedirectRules := l1 ++ l2 |} req
  = respond matchTemplate {| FinalRedirect := final; RedirectRules := l1 |} req.
Proof.
  intros Hin Hp Hu Hm. rewrite !respond_unfold. simpl.
  rewrite find_routes_app.
  destruct (find_is_some matchTemplate l1 req u Hin (conj Hp Hu) Hm) as [rt ->].
  reflexivity.
Qed.

Lemma later_rules_do_not_override_witness :
  respond String.eqb
    {| FinalRedirect := "https://example.com";
       RedirectRules := [goRule] ++ [goDevRule; nhRule] |} (get "/go")
  = respond String.eqb
      {| FinalRedirect := "https://example.com"; RedirectRules := [goRule] |}
      (get "/go").
Proof.
  apply (later_rules_do_not_override String.eqb "https://example.com"
           [goRule] [goDevRule; nhRule] goRule (get "/go")).
  - left.
  - discriminate.
  - discriminate.
  - reflexivity.
Defined.

(** X7: a rule that repeats the path of an earlier rule with non-empty
    path and URL is dead: the replies of the server are those of the
    configuration without it. *)
Theorem repeated_path_is_dead
    (matchTemplate : string → string → bool) (final : string)
    (l1 l2 l3 : list URLRule) (u v : URLRule) :
  Path u ≠ "" →
  URL u ≠ "" →
  Path v = Path u →
  ∀ req,
    respond matchTemplate
      {| FinalRedirect := final; RedirectRules := l1 ++ u :: l2 ++ v :: l3 |} req
    = respond matchTemplate
        {| FinalRedirect := final; RedirectRules := l1 ++ u :: l2 ++ l3 |} req.
Proof.
  intros Hp Hu Hsame req. rewrite !respond_unfold. simpl.
  replace (l1 ++ u :: l2 ++ v :: l3) with ((l1 ++ u :: l2) ++ [v] ++ l3)
    by (rewrite <- app_assoc; reflexivity).
  replace (l1 ++ u :: l2 ++ l3) with ((l1 ++ u :: l2) ++ l3)
    by (rewrite <- app_assoc; reflexivity).
  assert (Hin : u ∈ l1 ++ u :: l2) by (apply elem_of_app; right; left).
  generalize dependent (l1 ++ u :: l2). intros l Hin.
  rewrite (find_routes_app matchTemplate l ([v] ++ l3)).
  rewrite (find_routes_app matchTemplate l l3).
  rewrite (find_routes_app matchTemplate [v] l3).
  destruct (find (mux.route_matches matchTemplate req)
              (routeOf <$> filter valid l)) as [rt|] eqn:Hfind;
    [reflexivity|].
  assert (Hv : find (mux.route_matches matchTemplate req)
                 (routeOf <$> filter valid [v]) = None).
  { rewrite filter_cons, filter_nil.
    destruct (decide (valid v)); [|reflexivity]. simpl.
    unfold mux.route_matches. simpl. rewrite Hsame.
    rewrite (find_none_valid matchTemplate _ req Hfind u Hin); [reflexivity|].
    split; assumption. }
  rewrite Hv. reflexivity.
Qed.

Lemma repeated_path_is_dead_witness :
  respond String.eqb twiceGo (get "/go")
  = respond String.eqb
      {| FinalRedirect := "https://example.com"; RedirectRules := [goRule] |}
      (get "/go").
Proof.
  apply (repeated_path_is_dead String.eqb "https://example.com"
           [] [] [] goRule goDevRule).
  - discriminate.
  - discriminate.
  - reflexivity.
Defined.

(** ** The status loop on arbitrary option structs *)

Section StatusLoop.
Context {T : Type} `{reflect.Struct T}.

Lemma loop_panicked (options : T) (l : list nat) :
  foldl (λ statusCode i, statusCode ≫= λ c, fieldStep options c i) None l = None.
Proof. induction l as [|i l IH]; [reflexivity|exact IH]. Qed.

Lemma fieldStep_temporary (options : T) (i : nat) :
  fieldStep options http.StatusTemporaryRedirect i = Some http.StatusTemporaryRedirect
  ∨ fieldStep options http.StatusTemporaryRedirect i = None.
Proof.
  unfold fieldStep, reflect.FieldName, reflect.Field.
  destruct (reflect.fields options !! i) as [[name v]|]; simpl; [|right; reflexivity].
  destruct (String.eqb name "permanently"); [|left; reflexivity].
  destruct v as [[|]| |]; simpl; auto.
Qed.

Lemma loop_temporary_or_panic (options : T) (l : list nat) :
  foldl (λ statusCode i, statusCode ≫= λ c, fieldStep options c i)
        (Some http.StatusTemporaryRedirect) l = Some http.StatusTemporaryRedirect
  ∨ foldl (λ statusCode i, statusCode ≫= λ c, fieldStep options c i)
          (Some http.StatusTemporaryRedirect) l = None.
Proof.
  induction l as [|i l IH]; [left; reflexivity|]. simpl.
  destruct (fieldStep_temporary options i) as [-> | ->]; [exact IH|].
  right. apply loop_panicked.
Qed.

End StatusLoop.

(** X8: on an option struct of any type the status loop panics exactly
    when some field named [permanently] holds a value that is not a bool;
    in every other case it ends with 307, so the handler never writes 301
    or any other status. *)
Theorem status_loop_panics_iff {T : Type} `{reflect.Struct T} (options : T) :
  (ruleStatusCode options = None
   ↔ ∃ i v, reflect.fields options !! i = Some ("permanently", v)
            ∧ reflect.Bool v = None)
  ∧ (ruleStatusCode options = Some 307%Z ∨ ruleStatusCode options = None)
  ∧ ruleStatusCode options ≠ Some http.StatusMovedPermanently.
Proof.
  assert (Hcases : ruleStatusCode options = Some 307%Z ∨ ruleStatusCode options = None)
    by apply loop_temporary_or_panic.
  split; [|split; [exact Hcases|]].
  - split.
    + intros Hnone.
      destruct (decide (Exists (λ f, f.1 = "permanently" ∧ reflect.Bool f.2 = None)
                          (reflect.fields options))) as [Hex|Hnex].
      * apply Exists_exists in Hex as ([name v] & Hin & Hname & Hb). simpl in *.
        subst name. apply list_elem_of_lookup in Hin as [i Hi]. exists i, v.
        split; assumption.
      * rewrite ruleStatusCode_temporary in Hnone; [discriminate|].
        intros i v Hi. destruct (reflect.Bool v) as [b|] eqn:Hb; [eexists; reflexivity|].
        destruct Hnex. apply Exists_exists. exists ("permanently", v).
        split; [|split; [reflexivity|exact Hb]].
        apply list_elem_of_lookup. exists i. exact Hi.
    + intros (i & v & Hi & Hb). unfold ruleStatusCode, reflect.NumField.
      pose proof (lookup_lt_Some _ _ _ Hi) as Hlt.
      replace (length (reflect.fields options))
        with (i + S (length (reflect.fields options) - S i))%nat by lia.
      rewrite seq_app, foldl_app. simpl.
      assert (Hstep : fieldStep options http.StatusTemporaryRedirect i = None).
      { unfold fieldStep, reflect.FieldName, reflect.Field. rewrite Hi. simpl.
        rewrite Hb. reflexivity. }
      destruct (loop_temporary_or_panic options (seq 0 i)) as [-> | ->]; simpl.
      * rewrite Hstep. apply loop_panicked.
      * apply loop_panicked.
  - destruct Hcases as [-> | ->]; discriminate.
Qed.

(** * Further properties of the control flow of [main] *)

Section MoreLifecycle.
Variable matchTemplate : string → string → bool.
Variable c : Config.

(** A process ended by a signal was ended by a signal of the trace that is
    not relayed to the channel. *)
Lemma run_killed (tr : list event) (p0 p : process) (s : os.Signal) :
  run matchTemplate c tr p0 = Some p →
  mainAt p = Killed s →
  mainAt p0 = Killed s ∨ (Signal s ∈ tr ∧ s ∉ notified p0).
Proof.
  revert p0. induction tr as [|e tr IH]; intros p0 Hrun Hk; simpl in Hrun.
  - left. congruence.
  - destruct (step matchTemplate c e p0) as [p1|] eqn:Hstep; [|discriminate].
    simpl in Hrun. right.
    destruct (step_main _ _ _ _ _ Hstep) as [Hn Hmain].
    destruct (IH p1 Hrun Hk) as [Hk1|[Hin Hnot]].
    + destruct Hmain as [Hm|[(s' & _ & _ & _ & Hm)|[(s' & -> & Hnot & Hm)|(err & _ & _ & Hm)]]].
      * assert (Hr : running p0 = false) by (unfold running; rewrite <- Hm, Hk1; reflexivity).
        rewrite (step_stopped _ _ _ _ Hr) in Hstep. discriminate.
      * congruence.
      * assert (s' = s) as -> by congruence. split; [left|exact Hnot].
      * congruence.
    + split; [right; exact Hin|]. rewrite <- Hn. exact Hnot.
Qed.

End MoreLifecycle.

(** X11: only the interrupt signal starts the shutdown.  In every run,
    [main] is inside [srv.Shutdown] or has exited only if the interrupt
    signal occurred; a process ended by a signal was ended by a signal of
    the run other than the interrupt, without [os.Exit]; and an interrupt
    that arrives during the shutdown changes nothing. *)
Theorem only_interrupt_starts_shutdown
    (matchTemplate : string → string → bool) (c : Config)
    (tr : list event) (p : process) :
  run matchTemplate c tr start = Some p →
  (mainAt p = AtShutdown ∨ (∃ code, mainAt p = Exited code) →
   Signal os.Interrupt ∈ tr)
  ∧ (∀ s, mainAt p = Killed s → s ≠ os.Interrupt ∧ Signal s ∈ tr)
  ∧ (mainAt p = AtShutdown →
     step matchTemplate c (Signal os.Interrupt) p = Some p).
Proof.
  intros Hrun. split; [|split].
  - apply (run_leaves_receive matchTemplate c tr start p); try reflexivity.
    exact Hrun.
  - intros s Hk.
    destruct (run_killed matchTemplate c tr start p s Hrun Hk) as [H0|[Hin Hnot]];
      [discriminate H0|].
    split; [|exact Hin]. intros ->. apply Hnot. left.
  - intros Hm. pose proof (run_notified matchTemplate c tr start p Hrun) as Hn.
    simpl in Hn. unfold step, running. rewrite Hm, Hn.
    rewrite decide_True by left. reflexivity.
Qed.

Lemma only_interrupt_starts_shutdown_witness :
  Signal os.Interrupt ∈ [ServerStarts; Signal os.Interrupt]
  ∧ step String.eqb conf (Signal os.Interrupt)
      {| mainAt := AtShutdown; serveAt := AtListenAndServe; bound := false;
         notified := [os.Interrupt]; logged := ["Server Started"]; sent := [] |}
    = Some {| mainAt := AtShutdown; serveAt := AtListenAndServe; bound := false;
              notified := [os.Interrupt]; logged := ["Server Started"]; sent := [] |}.
Proof.
  destruct (only_interrupt_starts_shutdown String.eqb conf
              [ServerStarts; Signal os.Interrupt]
              {| mainAt := AtShutdown; serveAt := AtListenAndServe; bound := false;
                 notified := [os.Interrupt]; logged := ["Server Started"];
                 sent := [] |}) as (Hint & _ & Hagain).
  - reflexivity.
  - split; [apply Hint; left; reflexivity|apply Hagain; reflexivity].
Defined.

(** ** The order of the rules *)

(** Searching a permuted list finds an element with the same image under
    [g], provided all elements that satisfy the test have the same image. *)
Lemma find_permutation {A B : Type} (f : A → bool) (g : A → B) (l l' : list A) :
  l ≡ₚ l' →
  (∀ x y, x ∈ l → y ∈ l → f x = true → f y = true → g x = g y) →
  g <$> find f l = g <$> find f l'.
Proof.
  intros Hperm. induction Hperm as [|x l l' Hperm IH|x y l|l l' l'' H1 IH1 H2 IH2];
    intros Hsame.
  - reflexivity.
  - simpl. destruct (f x); [reflexivity|]. apply IH.
    intros a b Ha Hb. apply Hsame; right; assumption.
  - simpl. destruct (f x) eqn:Hx, (f y) eqn:Hy; try reflexivity.
    simpl. f_equal. apply Hsame; try assumption; [left|right; left].
  - rewrite IH1 by exact Hsame. apply IH2.
    intros a b Ha Hb. apply Hsame; rewrite H1; assumption.
Qed.

(** X13: the order of the rules matters only where rules overlap: when all
    rules with non-empty path and URL that match a request have the same
    URL, every reordering of the rules gives the same reply to it. *)
Theorem rule_order_irrelevant
    (matchTemplate : string → string → bool) (final : string)
    (l l' : list URLRule) (req : http.Request) :
  l ≡ₚ l' →
  (∀ u v, u ∈ l → v ∈ l →
          Path u ≠ "" → URL u ≠ "" → Path v ≠ "" → URL v ≠ "" →
          matchTemplate (Path u) (http.URL_Path req) = true →
          matchTemplate (Path v) (http.URL_Path req) = true →
          URL u = URL v) →
  respond matchTemplate {| FinalRedirect := final; RedirectRules := l |} req
  = respond matchTemplate {| FinalRedirect := final; RedirectRules := l' |} req.
Proof.
  intros Hperm Hsame. rewrite !respond_unfold. simpl.
  assert (Hfind :
    (λ rt, mux.handler rt http.NewResponse req)
      <$> find (mux.route_matches matchTemplate req) (routeOf <$> filter valid l)
    = (λ rt, mux.handler rt http.NewResponse req)
      <$> find (mux.route_matches matchTemplate req) (routeOf <$> filter valid l')).
  { apply find_permutation.
    - apply fmap_Permutation, filter_Permutation. exact Hperm.
    - intros x y Hx Hy Hfx Hfy.
      apply list_elem_of_fmap in Hx as (u & -> & Hu).
      apply list_elem_of_fmap in Hy as (v & -> & Hv).
      apply list_elem_of_filter in Hu as [[Hpu Huu] Hu].
      apply list_elem_of_filter in Hv as [[Hpv Huv] Hv].
      cbn [mux.handler routeOf]. rewrite !ruleHandler_struct_.
      rewrite (Hsame u v Hu Hv Hpu Huu Hpv Huv Hfx Hfy). reflexivity. }
  destruct (find (mux.route_matches matchTemplate req) (routeOf <$> filter valid l)),
           (find (mux.route_matches matchTemplate req) (routeOf <$> filter valid l'));
    simpl in Hfind; try discriminate; [|reflexivity].
  injection Hfind as ->. reflexivity.
Qed.

Lemma rule_order_irrelevant_witness :
  respond String.eqb
    {| FinalRedirect := "https://example.com"; RedirectRules := [goRule; nhRule] |}
    (get "/nh")
  = respond String.eqb
      {| FinalRedirect := "https://example.com"; RedirectRules := [nhRule; goRule] |}
      (get "/nh").
Proof.
  apply (rule_order_irrelevant String.eqb "https://example.com"
           [goRule; nhRule] [nhRule; goRule] (get "/nh")).
  - apply perm_swap.
  - intros u v Hu Hv _ _ _ _ Hmu Hmv.
    apply elem_of_cons in Hu as [->|Hu]; [discriminate Hmu|].
    apply elem_of_cons in Hv as [->|Hv]; [discriminate Hmv|].
    apply list_elem_of_singleton in Hu as ->.
    apply list_elem_of_singleton in Hv as ->. reflexivity.
Defined.
